(** * SwiftStorage controller: synthesis of the storage StatefulSet and the
      reconcile pass

    A shallow embedding of [controllers/swiftstorage_controller.go].

    The Kubernetes API structs are records that carry the fields the
    controller sets; a Go pointer field is an [option], a Go slice a [list],
    a [map[string]string] a [gmap string string].  A Go panic is the [Panic]
    result of the [Go] monad.  The cluster the reconcile pass talks to is an
    explicit state that is threaded through every call of the API client. *)

From stdpp Require Import gmap strings list.

Local Open Scope string_scope.
Local Open Scope Z_scope.

(** ** Panics *)

Inductive Go (A : Type) : Type :=
  | Return (a : A)
  | Panic (msg : string).
Arguments Return {A} a.
Arguments Panic {A} msg.

Definition go_bind {A B : Type} (m : Go A) (k : A -> Go B) : Go B :=
  match m with
  | Return a => k a
  | Panic msg => Panic msg
  end.

Definition go_map {A B : Type} (f : A -> B) (m : Go A) : Go B :=
  go_bind m (fun a => Return (f a)).

Notation "x <- m ;; k" := (go_bind m (fun x => k))
  (at level 100, m at next level, right associativity).

(** ** k8s.io/apimachinery/pkg/api/resource

    [resource.MustParse] panics when [resource.ParseQuantity] fails.  The
    grammar modelled here is the integer fragment of the library's
    [<quantity> ::= <signedNumber><suffix>]: an optional sign, one or more
    decimal digits, and a binary-SI or decimal-SI suffix.  Fractions and
    exponents are outside this fragment and are rejected by the model. *)

Module resource.

Inductive Suffix : Set :=
  | Ki | Mi | Gi | Ti | Pi | Ei
  | nano | micro | milli | unit_ | kilo | mega | giga | tera | peta | exa.

Record Quantity : Set := MkQuantity { q_number : Z; q_suffix : Suffix }.

Definition parseSuffix (s : string) : option Suffix :=
  if String.eqb s "Ki" then Some Ki
  else if String.eqb s "Mi" then Some Mi
  else if String.eqb s "Gi" then Some Gi
  else if String.eqb s "Ti" then Some Ti
  else if String.eqb s "Pi" then Some Pi
  else if String.eqb s "Ei" then Some Ei
  else if String.eqb s "n" then Some nano
  else if String.eqb s "u" then Some micro
  else if String.eqb s "m" then Some milli
  else if String.eqb s "" then Some unit_
  else if String.eqb s "k" then Some kilo
  else if String.eqb s "M" then Some mega
  else if String.eqb s "G" then Some giga
  else if String.eqb s "T" then Some tera
  else if String.eqb s "P" then Some peta
  else if String.eqb s "E" then Some exa
  else None.

Definition digit (c : Ascii.ascii) : option Z :=
  let n := Z.of_nat (Ascii.nat_of_ascii c) in
  if (48 <=? n) && (n <=? 57) then Some (n - 48) else None.

(** Reads the longest run of digits; returns the number read so far, how
    many digits were read, and the rest of the input. *)
Fixpoint parseDigits (acc : Z) (count : nat) (s : string) : Z * nat * string :=
  match s with
  | String c rest =>
      match digit c with
      | Some d => parseDigits (10 * acc + d) (S count) rest
      | None => (acc, count, s)
      end
  | EmptyString => (acc, count, s)
  end.

Definition parseSign (s : string) : bool * string :=
  match s with
  | String c rest =>
      if Ascii.eqb c (Ascii.ascii_of_nat 45) then (true, rest)
      else if Ascii.eqb c (Ascii.ascii_of_nat 43) then (false, rest)
      else (false, s)
  | EmptyString => (false, s)
  end.

Definition ParseQuantity (s : string) : option Quantity :=
  let '(negative, body) := parseSign s in
  let '(n, count, rest) := parseDigits 0 0 body in
  match count with
  | O => None
  | S _ =>
      match parseSuffix rest with
      | Some sfx => Some (MkQuantity (if negative then - n else n) sfx)
      | None => None
      end
  end.

Definition MustParse (s : string) : Go Quantity :=
  match ParseQuantity s with
  | Some q => Return q
  | None => Panic "cannot parse quantity"
  end.



End resource.

(** ** k8s.io/api/core/v1 *)

Module corev1.

Inductive PullPolicy : Set := PullAlways | PullNever | PullIfNotPresent.

Inductive PodFSGroupChangePolicy : Set :=
  | FSGroupChangeOnRootMismatch
  | FSGroupChangeAlways.

Inductive SeccompProfileType : Set :=
  | SeccompProfileTypeUnconfined
  | SeccompProfileTypeRuntimeDefault
  | SeccompProfileTypeLocalhost.

Inductive PersistentVolumeAccessMode : Set :=
  | ReadWriteOnce | ReadOnlyMany | ReadWriteMany | ReadWriteOncePod.

Inductive ResourceName : Set :=
  | ResourceCPU | ResourceMemory | ResourceStorage | ResourceEphemeralStorage.

Record SeccompProfile : Set := { sp_Type : SeccompProfileType }.

Record Sysctl : Set := { sysctl_Name : string; sysctl_Value : string }.

(** Container-level security context: the controller takes it whole from
    [swift.GetSecurityContext] and never looks inside. *)
Record SecurityContext : Set := {
  sc_RunAsUser : option Z;
  sc_RunAsGroup : option Z;
  sc_RunAsNonRoot : option bool;
  sc_AllowPrivilegeEscalation : option bool;
  sc_SeccompProfile : option SeccompProfile;
}.

Record PodSecurityContext : Set := {
  psc_RunAsUser : option Z;
  psc_RunAsGroup : option Z;
  psc_RunAsNonRoot : option bool;
  psc_FSGroup : option Z;
  psc_FSGroupChangePolicy : option PodFSGroupChangePolicy;
  psc_Sysctls : list Sysctl;
  psc_SeccompProfile : option SeccompProfile;
}.

(** The one-of [VolumeSource] struct: the member that is set. *)
Inductive VolumeSource : Set :=
  | PersistentVolumeClaimVolumeSource (ClaimName : string)
  | ConfigMapVolumeSource (Name : string)
  | EmptyDirVolumeSource (Medium : string).

Record Volume : Set := { vol_Name : string; vol_VolumeSource : VolumeSource }.

Record VolumeMount : Set := {
  vm_Name : string;
  vm_MountPath : string;
  vm_ReadOnly : bool;
}.

Record ContainerPort : Set := {
  cp_ContainerPort : Z;
  cp_Name : string;
}.

Record Container : Set := {
  c_Name : string;
  c_Image : string;
  c_ImagePullPolicy : PullPolicy;
  c_SecurityContext : option SecurityContext;
  c_Ports : list ContainerPort;
  c_VolumeMounts : list VolumeMount;
  c_Command : list string;
}.

Record PodSpec : Set := {
  ps_SecurityContext : option PodSecurityContext;
  ps_Volumes : list Volume;
  ps_InitContainers : list Container;
  ps_Containers : list Container;
}.

Record PodTemplateSpec : Type := {
  pts_Labels : gmap string string;
  pts_Spec : PodSpec;
}.

Record PersistentVolumeClaimSpec : Set := {
  pvcs_StorageClassName : option string;
  pvcs_AccessModes : list PersistentVolumeAccessMode;
  pvcs_Requests : list (ResourceName * resource.Quantity);
}.

Record PersistentVolumeClaim : Set := {
  pvc_Name : string;
  pvc_Spec : PersistentVolumeClaimSpec;
}.

End corev1.

(** ** k8s.io/api/apps/v1 *)

Module appsv1.

Record StatefulSetSpec : Type := {
  ServiceName : string;
  Selector : option (gmap string string);
  Replicas : option Z;
  Template : corev1.PodTemplateSpec;
  VolumeClaimTemplates : list corev1.PersistentVolumeClaim;
}.

Record StatefulSet : Type := {
  Name : string;
  Namespace : string;
  Labels : gmap string string;
  Spec : StatefulSetSpec;
}.

End appsv1.

(** ** swift-operator/api/v1beta1 *)

Module swiftv1beta1.

(** Modelled from the spec: the declaration of the [SwiftStorage] custom
    resource is not part of the controller file.  These are the fields of
    its [Spec] that the controller reads: the replica count (an [int32] that
    is copied and never computed with), the per-role image references, the
    storage class name and the name of the ring ConfigMap. *)
Record SwiftStorageSpec : Set := {
  Replicas : Z;
  ContainerImageAccount : string;
  ContainerImageContainer : string;
  ContainerImageObject : string;
  ContainerImageProxy : string;
  ContainerImageMemcached : string;
  StorageClassName : string;
  SwiftRingConfigMap : string;
}.

(** Modelled from the spec: the [SwiftStorage] resource itself, with its
    identity (name and namespace) and its [Spec]. *)
Record SwiftStorage : Set := {
  Name : string;
  Namespace : string;
  Spec : SwiftStorageSpec;
}.

End swiftv1beta1.

(** ** swift-operator/pkg/swift *)

Module swift.

(** Modelled from the spec: the constants and helpers of package [swift]
    (the fixed port table, the numeric identity, the container security
    context and the label set) are declared outside the controller file.
    They are the fields of one record, which every function below takes. *)
Record Pkg : Type := {
  AccountServerPort : Z;
  ContainerServerPort : Z;
  ObjectServerPort : Z;
  RsyncPort : Z;
  MemcachedPort : Z;
  RunAsUser : Z;
  GetSecurityContext : corev1.SecurityContext;
  GetLabelsStorage : gmap string string;
}.

End swift.

(** ** The spec synthesizer (controllers/swiftstorage_controller.go) *)

Section Synthesizer.

Context (pkg : swift.Pkg).

Definition getStorageVolumes (instance : swiftv1beta1.SwiftStorage)
  : list corev1.Volume :=
  [ {| corev1.vol_Name := "srv";
       corev1.vol_VolumeSource := corev1.PersistentVolumeClaimVolumeSource "srv" |};
    {| corev1.vol_Name := "config-data";
       corev1.vol_VolumeSource :=
         corev1.ConfigMapVolumeSource
           (swiftv1beta1.Name instance +:+ "-config-data") |};
    {| corev1.vol_Name := "ring-data";
       corev1.vol_VolumeSource :=
         corev1.ConfigMapVolumeSource
           (swiftv1beta1.SwiftRingConfigMap (swiftv1beta1.Spec instance)) |};
    {| corev1.vol_Name := "config-data-merged";
       corev1.vol_VolumeSource := corev1.EmptyDirVolumeSource "" |} ].

Definition getStorageVolumeMounts : list corev1.VolumeMount :=
  [ {| corev1.vm_Name := "srv";
       corev1.vm_MountPath := "/srv/node/d1";
       corev1.vm_ReadOnly := false |};
    {| corev1.vm_Name := "config-data";
       corev1.vm_MountPath := "/var/lib/config-data/default";
       corev1.vm_ReadOnly := true |};
    {| corev1.vm_Name := "ring-data";
       corev1.vm_MountPath := "/var/lib/config-data/rings";
       corev1.vm_ReadOnly := true |};
    {| corev1.vm_Name := "config-data-merged";
       corev1.vm_MountPath := "/etc/swift";
       corev1.vm_ReadOnly := false |} ].

Definition getPorts (port : Z) (name : string) : list corev1.ContainerPort :=
  [ {| corev1.cp_ContainerPort := port; corev1.cp_Name := name |} ].

Definition getStorageInitContainers (swiftstorage : swiftv1beta1.SwiftStorage)
  : list corev1.Container :=
  let securityContext := swift.GetSecurityContext pkg in
  let spec := swiftv1beta1.Spec swiftstorage in
  [ {| corev1.c_Name := "swift-init";
       corev1.c_Image := swiftv1beta1.ContainerImageAccount spec;
       corev1.c_ImagePullPolicy := corev1.PullIfNotPresent;
       corev1.c_SecurityContext := Some securityContext;
       corev1.c_Ports := [];
       corev1.c_VolumeMounts := getStorageVolumeMounts;
       corev1.c_Command :=
         [ "/bin/sh"; "-c";
           "cp -t /etc/swift/ /var/lib/config-data/default/* /var/lib/config-data/rings/*" ] |} ].

Definition getStorageContainers (swiftstorage : swiftv1beta1.SwiftStorage)
  : list corev1.Container :=
  let securityContext := swift.GetSecurityContext pkg in
  let spec := swiftv1beta1.Spec swiftstorage in
  [ {| corev1.c_Name := "account-server";
       corev1.c_Image := swiftv1beta1.ContainerImageAccount spec;
       corev1.c_ImagePullPolicy := corev1.PullIfNotPresent;
       corev1.c_SecurityContext := Some securityContext;
       corev1.c_Ports := getPorts (swift.AccountServerPort pkg) "account";
       corev1.c_VolumeMounts := getStorageVolumeMounts;
       corev1.c_Command :=
         [ "/usr/bin/swift-account-server"; "/etc/swift/account-server.conf"; "-v" ] |};
    {| corev1.c_Name := "account-replicator";
       corev1.c_Image := swiftv1beta1.ContainerImageAccount spec;
       corev1.c_ImagePullPolicy := corev1.PullIfNotPresent;
       corev1.c_SecurityContext := Some securityContext;
       corev1.c_Ports := [];
       corev1.c_VolumeMounts := getStorageVolumeMounts;
       corev1.c_Command :=
         [ "/usr/bin/swift-account-replicator"; "/etc/swift/account-server.conf"; "-v" ] |};
    {| corev1.c_Name := "account-auditor";
       corev1.c_Image := swiftv1beta1.ContainerImageAccount spec;
       corev1.c_ImagePullPolicy := corev1.PullIfNotPresent;
       corev1.c_SecurityContext := Some securityContext;
       corev1.c_Ports := [];
       corev1.c_VolumeMounts := getStorageVolumeMounts;
       corev1.c_Command :=
         [ "/usr/bin/swift-account-auditor"; "/etc/swift/account-server.conf"; "-v" ] |};
    {| corev1.c_Name := "account-reaper";
       corev1.c_Image := swiftv1beta1.ContainerImageAccount spec;
       corev1.c_ImagePullPolicy := corev1.PullIfNotPresent;
       corev1.c_SecurityContext := Some securityContext;
       corev1.c_Ports := [];
       corev1.c_VolumeMounts := getStorageVolumeMounts;
       corev1.c_Command :=
         [ "/usr/bin/swift-account-reaper"; "/etc/swift/account-server.conf"; "-v" ] |};
    {| corev1.c_Name := "container-server";
       corev1.c_Image := swiftv1beta1.ContainerImageContainer spec;
       corev1.c_ImagePullPolicy := corev1.PullIfNotPresent;
       corev1.c_SecurityContext := Some securityContext;
       corev1.c_Ports := getPorts (swift.ContainerServerPort pkg) "container";
       corev1.c_VolumeMounts := getStorageVolumeMounts;
       corev1.c_Command :=
         [ "/usr/bin/swift-container-server"; "/etc/swift/container-server.conf"; "-v" ] |};
    {| corev1.c_Name := "container-replicator";
       corev1.c_Image := swiftv1beta1.ContainerImageContainer spec;
       corev1.c_ImagePullPolicy := corev1.PullIfNotPresent;
       corev1.c_SecurityContext := Some securityContext;
       corev1.c_Ports := [];
       corev1.c_VolumeMounts := getStorageVolumeMounts;
       corev1.c_Command :=
         [ "/usr/bin/swift-container-replicator"; "/etc/swift/container-server.conf"; "-v" ] |};
    {| corev1.c_Name := "container-auditor";
       corev1.c_Image := swiftv1beta1.ContainerImageContainer spec;
       corev1.c_ImagePullPolicy := corev1.PullIfNotPresent;
       corev1.c_SecurityContext := Some securityContext;
       corev1.c_Ports := [];
       corev1.c_VolumeMounts := getStorageVolumeMounts;
       corev1.c_Command :=
         [ "/usr/bin/swift-container-replicator"; "/etc/swift/container-server.conf"; "-v" ] |};
    {| corev1.c_Name := "container-updater";
       corev1.c_Image := swiftv1beta1.ContainerImageContainer spec;
       corev1.c_ImagePullPolicy := corev1.PullIfNotPresent;
       corev1.c_SecurityContext := Some securityContext;
       corev1.c_Ports := [];
       corev1.c_VolumeMounts := getStorageVolumeMounts;
       corev1.c_Command :=
         [ "/usr/bin/swift-container-replicator"; "/etc/swift/container-server.conf"; "-v" ] |};
    {| corev1.c_Name := "object-server";
       corev1.c_Image := swiftv1beta1.ContainerImageObject spec;
       corev1.c_ImagePullPolicy := corev1.PullIfNotPresent;
       corev1.c_SecurityContext := Some securityContext;
       corev1.c_Ports := getPorts (swift.ObjectServerPort pkg) "object";
       corev1.c_VolumeMounts := getStorageVolumeMounts;
       corev1.c_Command :=
         [ "/usr/bin/swift-object-server"; "/etc/swift/object-server.conf"; "-v" ] |};
    {| corev1.c_Name := "object-replicator";
       corev1.c_Image := swiftv1beta1.ContainerImageObject spec;
       corev1.c_ImagePullPolicy := corev1.PullIfNotPresent;
       corev1.c_SecurityContext := Some securityContext;
       corev1.c_Ports := [];
       corev1.c_VolumeMounts := getStorageVolumeMounts;
       corev1.c_Command :=
         [ "/usr/bin/swift-object-replicator"; "/etc/swift/object-server.conf"; "-v" ] |};
    {| corev1.c_Name := "object-auditor";
       corev1.c_Image := swiftv1beta1.ContainerImageObject spec;
       corev1.c_ImagePullPolicy := corev1.PullIfNotPresent;
       corev1.c_SecurityContext := Some securityContext;
       corev1.c_Ports := [];
       corev1.c_VolumeMounts := getStorageVolumeMounts;
       corev1.c_Command :=
         [ "/usr/bin/swift-object-replicator"; "/etc/swift/object-server.conf"; "-v" ] |};
    {| corev1.c_Name := "object-updater";
       corev1.c_Image := swiftv1beta1.ContainerImageObject spec;
       corev1.c_ImagePullPolicy := corev1.PullIfNotPresent;
       corev1.c_SecurityContext := Some securityContext;
       corev1.c_Ports := [];
       corev1.c_VolumeMounts := getStorageVolumeMounts;
       corev1.c_Command :=
         [ "/usr/bin/swift-object-replicator"; "/etc/swift/object-server.conf"; "-v" ] |};
    {| corev1.c_Name := "object-expirer";
       corev1.c_Image := swiftv1beta1.ContainerImageProxy spec;
       corev1.c_ImagePullPolicy := corev1.PullIfNotPresent;
       corev1.c_SecurityContext := Some securityContext;
       corev1.c_Ports := [];
       corev1.c_VolumeMounts := getStorageVolumeMounts;
       corev1.c_Command :=
         [ "/usr/bin/swift-object-expirer"; "/etc/swift/object-expirer.conf"; "-v" ] |};
    {| corev1.c_Name := "rsync";
       corev1.c_Image := swiftv1beta1.ContainerImageObject spec;
       corev1.c_ImagePullPolicy := corev1.PullIfNotPresent;
       corev1.c_SecurityContext := Some securityContext;
       corev1.c_Ports := getPorts (swift.RsyncPort pkg) "rsync";
       corev1.c_VolumeMounts := getStorageVolumeMounts;
       corev1.c_Command :=
         [ "/usr/bin/rsync"; "--daemon"; "--no-detach";
           "--config=/etc/swift/rsyncd.conf"; "--log-file=/dev/stdout" ] |};
    {| corev1.c_Name := "memcached";
       corev1.c_Image := swiftv1beta1.ContainerImageMemcached spec;
       corev1.c_ImagePullPolicy := corev1.PullIfNotPresent;
       corev1.c_SecurityContext := Some securityContext;
       corev1.c_Ports := getPorts (swift.MemcachedPort pkg) "memcached";
       corev1.c_VolumeMounts := [];
       corev1.c_Command := [ "/usr/bin/memcached"; "-p"; "11211"; "-u"; "memcached" ] |} ].

Definition getStorageStatefulSet
    (swiftstorage : swiftv1beta1.SwiftStorage) (labels : gmap string string)
  : Go appsv1.StatefulSet :=
  let trueVal := true in
  let OnRootMismatch := corev1.FSGroupChangeOnRootMismatch in
  let user := swift.RunAsUser pkg in
  storage <- resource.MustParse "1Gi" ;;
  Return
    {| appsv1.Name := swiftv1beta1.Name swiftstorage;
       appsv1.Namespace := swiftv1beta1.Namespace swiftstorage;
       appsv1.Labels := labels;
       appsv1.Spec :=
         {| appsv1.ServiceName := swiftv1beta1.Name swiftstorage;
            appsv1.Selector := Some labels;
            appsv1.Replicas :=
              Some (swiftv1beta1.Replicas (swiftv1beta1.Spec swiftstorage));
            appsv1.Template :=
              {| corev1.pts_Labels := labels;
                 corev1.pts_Spec :=
                   {| corev1.ps_SecurityContext :=
                        Some
                          {| corev1.psc_RunAsUser := None;
                             corev1.psc_RunAsGroup := None;
                             corev1.psc_RunAsNonRoot := Some trueVal;
                             corev1.psc_FSGroup := Some user;
                             corev1.psc_FSGroupChangePolicy := Some OnRootMismatch;
                             corev1.psc_Sysctls :=
                               [ {| corev1.sysctl_Name :=
                                      "net.ipv4.ip_unprivileged_port_start";
                                    corev1.sysctl_Value := "873" |} ];
                             corev1.psc_SeccompProfile :=
                               Some {| corev1.sp_Type :=
                                         corev1.SeccompProfileTypeRuntimeDefault |} |};
                      corev1.ps_Volumes := getStorageVolumes swiftstorage;
                      corev1.ps_InitContainers := getStorageInitContainers swiftstorage;
                      corev1.ps_Containers := getStorageContainers swiftstorage |} |};
            appsv1.VolumeClaimTemplates :=
              [ {| corev1.pvc_Name := "srv";
                   corev1.pvc_Spec :=
                     {| corev1.pvcs_StorageClassName :=
                          Some (swiftv1beta1.StorageClassName
                                  (swiftv1beta1.Spec swiftstorage));
                        corev1.pvcs_AccessModes := [ corev1.ReadWriteOnce ];
                        corev1.pvcs_Requests :=
                          [ (corev1.ResourceStorage, storage) ] |} |} ] |} |}.

End Synthesizer.

(** ** Decidable equality of the API structs

    The applier compares a live object with a target, and [Reconcile]
    compares a [ctrl.Result] with the zero value. *)

Section EqDecisions.

Local Ltac eqdec := solve_decision.

#[global] Instance Suffix_eq_dec : EqDecision resource.Suffix.
Proof. eqdec. Defined.
#[global] Instance Quantity_eq_dec : EqDecision resource.Quantity.
Proof. eqdec. Defined.
#[global] Instance PullPolicy_eq_dec : EqDecision corev1.PullPolicy.
Proof. eqdec. Defined.
#[global] Instance PodFSGroupChangePolicy_eq_dec :
  EqDecision corev1.PodFSGroupChangePolicy.
Proof. eqdec. Defined.
#[global] Instance SeccompProfileType_eq_dec : EqDecision corev1.SeccompProfileType.
Proof. eqdec. Defined.
#[global] Instance PersistentVolumeAccessMode_eq_dec :
  EqDecision corev1.PersistentVolumeAccessMode.
Proof. eqdec. Defined.
#[global] Instance ResourceName_eq_dec : EqDecision corev1.ResourceName.
Proof. eqdec. Defined.
#[global] Instance SeccompProfile_eq_dec : EqDecision corev1.SeccompProfile.
Proof. eqdec. Defined.
#[global] Instance Sysctl_eq_dec : EqDecision corev1.Sysctl.
Proof. eqdec. Defined.
#[global] Instance SecurityContext_eq_dec : EqDecision corev1.SecurityContext.
Proof. eqdec. Defined.
#[global] Instance PodSecurityContext_eq_dec : EqDecision corev1.PodSecurityContext.
Proof. eqdec. Defined.
#[global] Instance VolumeSource_eq_dec : EqDecision corev1.VolumeSource.
Proof. eqdec. Defined.
#[global] Instance Volume_eq_dec : EqDecision corev1.Volume.
Proof. eqdec. Defined.
#[global] Instance VolumeMount_eq_dec : EqDecision corev1.VolumeMount.
Proof. eqdec. Defined.
#[global] Instance ContainerPort_eq_dec : EqDecision corev1.ContainerPort.
Proof. eqdec. Defined.
#[global] Instance Container_eq_dec : EqDecision corev1.Container.
Proof. eqdec. Defined.
#[global] Instance PodSpec_eq_dec : EqDecision corev1.PodSpec.
Proof. eqdec. Defined.
#[global] Instance PodTemplateSpec_eq_dec : EqDecision corev1.PodTemplateSpec.
Proof. eqdec. Defined.
#[global] Instance PersistentVolumeClaimSpec_eq_dec :
  EqDecision corev1.PersistentVolumeClaimSpec.
Proof. eqdec. Defined.
#[global] Instance PersistentVolumeClaim_eq_dec :
  EqDecision corev1.PersistentVolumeClaim.
Proof. eqdec. Defined.
#[global] Instance StatefulSetSpec_eq_dec : EqDecision appsv1.StatefulSetSpec.
Proof. eqdec. Defined.
#[global] Instance StatefulSet_eq_dec : EqDecision appsv1.StatefulSet.
Proof. eqdec. Defined.

End EqDecisions.

(** ** k8s.io/apimachinery/pkg/api/errors

    A Go [error] that came from the API carries a status reason, which
    [IsNotFound] tests.  A nil error is [None]. *)

Module apierrors.

Inductive StatusReason : Set :=
  | StatusReasonNotFound
  | StatusReasonConflict
  | StatusReasonUnknown.

Record error : Set := { Reason : StatusReason; Message : string }.

Definition IsNotFound (err : error) : bool :=
  match Reason err with StatusReasonNotFound => true | _ => false end.

End apierrors.

(** ** sigs.k8s.io/controller-runtime *)

Module ctrl.

(** Namespace and name. *)
Definition NamespacedName : Set := (string * string)%type.

Record Request : Set := { req_NamespacedName : NamespacedName }.

Record Result : Set := { Requeue : bool; RequeueAfter : Z }.

(** The zero value [ctrl.Result{}]. *)
Definition Result_zero : Result := {| Requeue := false; RequeueAfter := 0 |}.

#[global] Instance Result_eq_dec : EqDecision Result.
Proof. solve_decision. Defined.

End ctrl.

(** ** The cluster and the effects of a reconcile pass *)

Abbreviation error := apierrors.error.

(** A call of the cluster API, as the control plane sees it. *)
Inductive ApiCall : Set :=
  | ApiGetSwiftStorage (key : ctrl.NamespacedName)
  | ApiGetStatefulSet (key : ctrl.NamespacedName)
  | ApiCreateStatefulSet (key : ctrl.NamespacedName)
  | ApiPatchStatefulSet (key : ctrl.NamespacedName).

Inductive LogEntry : Set :=
  | LogInfo (msg : string)
  | LogError (err : error) (msg : string).

(** Modelled from the spec: the live object of section 3, which the cluster
    keeps and the controller file never declares: the fields this controller
    manages, the ownership edge, and whatever other actors wrote. *)
Record LiveObject : Type := {
  live_managed : appsv1.StatefulSet;
  live_owner : option ctrl.NamespacedName;
  live_unmanaged : gmap string string;
}.

Record World : Type := {
  swiftstorages : gmap ctrl.NamespacedName swiftv1beta1.SwiftStorage;
  statefulsets : gmap ctrl.NamespacedName LiveObject;
  calls : list ApiCall;
  log : list LogEntry;
}.

(** What the cluster API answers to a write. *)
Inductive WriteResponse : Set :=
  | WriteSuccess
  | WriteConflict
  | WriteError (err : error).

(** The failures the environment injects into one pass. *)
Record Faults : Set := {
  get_fault : option error;
  helper_fault : option error;
  lookup_fault : option error;
  create_fault : option error;
  patch_response : WriteResponse;
}.

Definition no_faults : Faults :=
  {| get_fault := None; helper_fault := None; lookup_fault := None;
     create_fault := None; patch_response := WriteSuccess |}.

(** State passing over the world, with panics. *)
Definition M (A : Type) : Type := World -> Go (A * World).

Definition ret {A : Type} (a : A) : M A := fun w => Return (a, w).

Definition bind {A B : Type} (m : M A) (k : A -> M B) : M B :=
  fun w =>
    match m w with
    | Return (a, w') => k a w'
    | Panic msg => Panic msg
    end.

Definition liftGo {A : Type} (g : Go A) : M A :=
  fun w => go_map (fun a => (a, w)) g.

Notation "x <-- m ;; k" := (bind m (fun x => k))
  (at level 100, m at next level, right associativity).

Definition with_call (c : ApiCall) (w : World) : World :=
  {| swiftstorages := swiftstorages w; statefulsets := statefulsets w;
     calls := calls w ++ [c]; log := log w |}.

Definition with_log (e : LogEntry) (w : World) : World :=
  {| swiftstorages := swiftstorages w; statefulsets := statefulsets w;
     calls := calls w; log := log w ++ [e] |}.

Definition record_call (c : ApiCall) : M unit :=
  fun w => Return (tt, with_call c w).

Definition write_log (e : LogEntry) : M unit :=
  fun w => Return (tt, with_log e w).

Definition Log_Info (msg : string) : M unit := write_log (LogInfo msg).
Definition Log_Error (err : error) (msg : string) : M unit :=
  write_log (LogError err msg).

Definition put_statefulset (key : ctrl.NamespacedName) (o : LiveObject) : M unit :=
  fun w =>
    Return (tt, {| swiftstorages := swiftstorages w;
                   statefulsets := <[key := o]> (statefulsets w);
                   calls := calls w;
                   log := log w |}).

Definition not_found_error : error :=
  {| apierrors.Reason := apierrors.StatusReasonNotFound;
     apierrors.Message := "not found" |}.

(** Modelled from the spec: [client.Get] of the SwiftStorage with the given
    key, by the interface of the desired-state source in section 6,
    [get(namespace, name) -> DesiredState | NotFound | Error]; the client is
    not part of the controller file. *)
Definition Get (env : Faults) (key : ctrl.NamespacedName)
  : M (swiftv1beta1.SwiftStorage + error) :=
  _ <-- record_call (ApiGetSwiftStorage key) ;;
  fun w =>
    match get_fault env with
    | Some err => Return (inr err, w)
    | None =>
        match swiftstorages w !! key with
        | Some instance => Return (inl instance, w)
        | None =>
            Return (inr not_found_error, w)
        end
    end.

(** [helper.Helper] of lib-common: it remembers the object it was made for,
    and making it can fail. *)
Module helper.

Record Helper : Set := { beforeObject : swiftv1beta1.SwiftStorage }.

Definition NewHelper (env : Faults) (obj : swiftv1beta1.SwiftStorage)
  : Helper + error :=
  match helper_fault env with
  | Some err => inr err
  | None => inl {| beforeObject := obj |}
  end.

End helper.

(** [statefulset.StatefulSet] of lib-common: the target and a timeout. *)
Module statefulset.

Record StatefulSet : Type := {
  statefulset : appsv1.StatefulSet;
  timeout : Z;
}.

Definition NewStatefulSet (sset : appsv1.StatefulSet) (timeout : Z) : StatefulSet :=
  {| statefulset := sset; timeout := timeout |}.

End statefulset.

(** ** The reconcile pass (controllers/swiftstorage_controller.go) *)

Section Reconciler.

Context (pkg : swift.Pkg).

(** [sset.CreateOrPatch(ctx, helper)] of lib-common. *)
Context (CreateOrPatch :
           statefulset.StatefulSet -> helper.Helper -> M (ctrl.Result * option error)).

Context (env : Faults).

Definition Reconcile (req : ctrl.Request) : M (ctrl.Result * option error) :=
  got <-- Get env (ctrl.req_NamespacedName req) ;;
  match got with
  | inr err =>
      if apierrors.IsNotFound err then
        _ <-- Log_Info "SwiftStorage resource not found. Ignoring since object must be deleted" ;;
        ret (ctrl.Result_zero, None)
      else
        _ <-- Log_Error err "Failed to get SwiftStorage" ;;
        ret (ctrl.Result_zero, Some err)
  | inl instance =>
      match helper.NewHelper env instance with
      | inr err => ret (ctrl.Result_zero, Some err)
      | inl helper =>
          let ls := swift.GetLabelsStorage pkg in
          target <-- liftGo (getStorageStatefulSet pkg instance ls) ;;
          let sset := statefulset.NewStatefulSet target 5 in
          applied <-- CreateOrPatch sset helper ;;
          let '(ctrlResult, err) := applied in
          match err with
          | Some e => ret (ctrlResult, Some e)
          | None =>
              if bool_decide (ctrlResult <> ctrl.Result_zero) then
                ret (ctrlResult, None)
              else
                _ <-- Log_Info ("Reconciled SwiftStorage '"
                                +:+ swiftv1beta1.Name instance
                                +:+ "' successfully") ;;
                ret (ctrl.Result_zero, None)
          end
      end
  end.

End Reconciler.

(** ** The scheduling directive *)

(** Modelled from the spec: the scheduling directives of sections 4.3 and 6,
    which the loop driver of controller-runtime reads off the values a pass
    returns. *)
Inductive Directive : Set :=
  | Done
  | RequeueNow
  | RequeueAfter (d : Z)
  | RequeueError (err : error).

(** Modelled from the spec: how the loop driver, which is not part of the
    controller file, reads the pair a pass returns.  A non-nil error
    requeues with backoff, a positive [RequeueAfter] requeues after that
    delay, [Requeue] requeues at once, and the zero result ends the pass. *)
Definition directive (r : ctrl.Result * option error) : Directive :=
  match r with
  | (_, Some err) => RequeueError err
  | (res, None) =>
      if 0 <? ctrl.RequeueAfter res then RequeueAfter (ctrl.RequeueAfter res)
      else if ctrl.Requeue res then RequeueNow
      else Done
  end.

(** ** The state comparator / applier *)

Module applier.

(** Modelled from the spec: the outcomes of the applier of section 4.2;
    [statefulset.CreateOrPatch] of lib-common, which produces them, is not
    part of the controller file. *)
Inductive ReconcileOutcome : Set :=
  | Created
  | Unchanged
  | Patched
  | Retry
  | Error (err : error).

Definition identity (target : appsv1.StatefulSet) : ctrl.NamespacedName :=
  (appsv1.Namespace target, appsv1.Name target).

Definition owner_key (owner : swiftv1beta1.SwiftStorage) : ctrl.NamespacedName :=
  (swiftv1beta1.Namespace owner, swiftv1beta1.Name owner).

Definition lookup_live (key : ctrl.NamespacedName) : M (option LiveObject) :=
  fun w => Return (statefulsets w !! key, w).

(** Modelled from the spec: the applier of section 4.2, which stands for
    [statefulset.CreateOrPatch] of lib-common and the cluster API behind it;
    neither is part of the controller file.  The contract is
    [apply(target, owner) -> (ReconcileOutcome, error)]: look the live
    object up by the identity of the target; create it when absent and set
    the ownership edge; leave it alone when its managed fields equal the
    target; otherwise patch the managed fields only.  A patch rejected for a
    concurrent modification gives [Retry]; any other error of the cluster
    API is surfaced as [Error]. *)
Definition apply (env : Faults) (target : appsv1.StatefulSet)
    (owner : swiftv1beta1.SwiftStorage) : M ReconcileOutcome :=
  let key := identity target in
  _ <-- record_call (ApiGetStatefulSet key) ;;
  match lookup_fault env with
  | Some err => ret (Error err)
  | None =>
      found <-- lookup_live key ;;
      match found with
      | None =>
          _ <-- record_call (ApiCreateStatefulSet key) ;;
          match create_fault env with
          | Some err => ret (Error err)
          | None =>
              _ <-- put_statefulset key
                      {| live_managed := target;
                         live_owner := Some (owner_key owner);
                         live_unmanaged := ∅ |} ;;
              ret Created
          end
      | Some live =>
          if bool_decide (live_managed live = target) then ret Unchanged
          else
            _ <-- record_call (ApiPatchStatefulSet key) ;;
            match patch_response env with
            | WriteSuccess =>
                _ <-- put_statefulset key
                        {| live_managed := target;
                           live_owner := live_owner live;
                           live_unmanaged := live_unmanaged live |} ;;
                ret Patched
            | WriteConflict => ret Retry
            | WriteError err => ret (Error err)
            end
      end
  end.

(** Modelled from the spec: how an outcome of the applier reaches the
    reconcile pass as the pair that [CreateOrPatch] of lib-common returns.
    Success is the zero result, [Retry] asks for an immediate requeue, an
    error is returned as it is (sections 4.2 and 4.3). *)
Definition outcome_result (o : ReconcileOutcome) : ctrl.Result * option error :=
  match o with
  | Created | Unchanged | Patched => (ctrl.Result_zero, None)
  | Retry => ({| ctrl.Requeue := true; ctrl.RequeueAfter := 0 |}, None)
  | Error err => (ctrl.Result_zero, Some err)
  end.

(** Modelled from the spec: [sset.CreateOrPatch(ctx, helper)] as the applier
    of section 4.2 run on the wrapped target, with the object the helper was
    made for as owner. *)
Definition CreateOrPatch (env : Faults) (sset : statefulset.StatefulSet)
    (h : helper.Helper) : M (ctrl.Result * option error) :=
  outcome <-- apply env (statefulset.statefulset sset) (helper.beforeObject h) ;;
  ret (outcome_result outcome).

Definition succeeded (o : ReconcileOutcome) : bool :=
  match o with
  | Created | Unchanged | Patched => true
  | Retry | Error _ => false
  end.

End applier.

(** ** Repeated passes *)

(** [n] passes in a row for one request, none of them disturbed by the
    environment; the results are listed first pass first. *)
Fixpoint reconcile_loop (pkg : swift.Pkg) (req : ctrl.Request) (n : nat)
  : M (list (ctrl.Result * option error)) :=
  match n with
  | O => ret []
  | S n' =>
      r <-- Reconcile pkg (applier.CreateOrPatch no_faults) no_faults req ;;
      rs <-- reconcile_loop pkg req n' ;;
      ret (r :: rs)
  end.

Definition is_write (c : ApiCall) : bool :=
  match c with
  | ApiCreateStatefulSet _ | ApiPatchStatefulSet _ => true
  | ApiGetSwiftStorage _ | ApiGetStatefulSet _ => false
  end.

(** ** The role table as the specification words it *)

Definition domains : list string := [ "account"; "container"; "object" ].

Definition domain_roles : list string :=
  [ "server"; "replicator"; "auditor"; "updater" ].

Definition role_name (domain role : string) : string := domain +:+ "-" +:+ role.

Definition has_role (cs : list corev1.Container) (name : string) : bool :=
  existsb (fun c => String.eqb (corev1.c_Name c) name) cs.

(** Every domain has a server, a replicator, an auditor and an updater. *)
Definition spec_role_table (cs : list corev1.Container) : bool :=
  forallb (fun d => forallb (fun r => has_role cs (role_name d r)) domain_roles)
          domains.

(** ** Readings of a synthesized StatefulSet *)

Definition podSpec (sset : appsv1.StatefulSet) : corev1.PodSpec :=
  corev1.pts_Spec (appsv1.Template (appsv1.Spec sset)).

Definition name_image (c : corev1.Container) : string * string :=
  (corev1.c_Name c, corev1.c_Image c).

Definition named (name : string) (cs : list corev1.Container) : list corev1.Container :=
  filter (fun c => corev1.c_Name c = name) cs.

(** The executable a container launches: the head of its command. *)
Definition binary (c : corev1.Container) : option string :=
  head (corev1.c_Command c).

Definition sourced_from_configmap (name : string) (v : corev1.Volume) : bool :=
  match corev1.vol_VolumeSource v with
  | corev1.ConfigMapVolumeSource n => String.eqb n name
  | _ => false
  end.




(** ** Sample inputs *)

Definition sample_pkg : swift.Pkg :=
  {| swift.AccountServerPort := 6202;
     swift.ContainerServerPort := 6201;
     swift.ObjectServerPort := 6200;
     swift.RsyncPort := 873;
     swift.MemcachedPort := 11211;
     swift.RunAsUser := 42445;
     swift.GetSecurityContext :=
       {| corev1.sc_RunAsUser := Some 42445;
          corev1.sc_RunAsGroup := Some 42445;
          corev1.sc_RunAsNonRoot := Some true;
          corev1.sc_AllowPrivilegeEscalation := Some false;
          corev1.sc_SeccompProfile := None |};
     swift.GetLabelsStorage := {[ "app" := "swift-storage" ]} |}.

(** Scenario A of the specification. *)
Definition scenarioA : swiftv1beta1.SwiftStorage :=
  {| swiftv1beta1.Name := "swift-storage";
     swiftv1beta1.Namespace := "openstack";
     swiftv1beta1.Spec :=
       {| swiftv1beta1.Replicas := 3;
          swiftv1beta1.ContainerImageAccount := "A";
          swiftv1beta1.ContainerImageContainer := "B";
          swiftv1beta1.ContainerImageObject := "C";
          swiftv1beta1.ContainerImageProxy := "P";
          swiftv1beta1.ContainerImageMemcached := "M";
          swiftv1beta1.StorageClassName := "fast";
          swiftv1beta1.SwiftRingConfigMap := "ring-1" |} |}.

Definition scenarioA_request : ctrl.Request :=
  {| ctrl.req_NamespacedName := ("openstack", "swift-storage") |}.

Definition empty_world : World :=
  {| swiftstorages := ∅; statefulsets := ∅; calls := []; log := [] |}.

(** A cluster that holds the SwiftStorage of scenario A and nothing else. *)
Definition scenarioA_world : World :=
  {| swiftstorages := {[ ("openstack", "swift-storage") := scenarioA ]};
     statefulsets := ∅; calls := []; log := [] |}.

(** A pass in which the cluster rejects the patch for a conflict. *)
Definition conflict_faults : Faults :=
  {| get_fault := None; helper_fault := None; lookup_fault := None;
     create_fault := None; patch_response := WriteConflict |}.

(** Scenario A scaled down to one replica. *)
Definition scenarioA_one_replica : swiftv1beta1.SwiftStorage :=
  {| swiftv1beta1.Name := "swift-storage";
     swiftv1beta1.Namespace := "openstack";
     swiftv1beta1.Spec :=
       {| swiftv1beta1.Replicas := 1;
          swiftv1beta1.ContainerImageAccount := "A";
          swiftv1beta1.ContainerImageContainer := "B";
          swiftv1beta1.ContainerImageObject := "C";
          swiftv1beta1.ContainerImageProxy := "P";
          swiftv1beta1.ContainerImageMemcached := "M";
          swiftv1beta1.StorageClassName := "fast";
          swiftv1beta1.SwiftRingConfigMap := "ring-1" |} |}.

(** A cluster that holds the SwiftStorage of scenario A and a StatefulSet
    that was applied when it still asked for one replica. *)
Definition stale_world : World :=
  match getStorageStatefulSet sample_pkg scenarioA_one_replica
          (swift.GetLabelsStorage sample_pkg) with
  | Return stale =>
      {| swiftstorages := {[ ("openstack", "swift-storage") := scenarioA ]};
         statefulsets :=
           {[ ("openstack", "swift-storage") :=
                {| live_managed := stale;
                   live_owner := Some ("openstack", "swift-storage");
                   live_unmanaged := ∅ |} ]};
         calls := []; log := [] |}
  | Panic _ => scenarioA_world
  end.


Definition timeout_error : error :=
  {| apierrors.Reason := apierrors.StatusReasonUnknown;
     apierrors.Message := "context deadline exceeded" |}.

(** A pass in which the fetch of the SwiftStorage times out. *)
Definition fetch_timeout : Faults :=
  {| get_fault := Some timeout_error; helper_fault := None; lookup_fault := None;
     create_fault := None; patch_response := WriteSuccess |}.

(** ** Further readings of a pod and of a command line *)

Definition allContainers (sset : appsv1.StatefulSet) : list corev1.Container :=
  (corev1.ps_InitContainers (podSpec sset) ++ corev1.ps_Containers (podSpec sset))%list.

Definition portNumbers (cs : list corev1.Container) : list Z :=
  flat_map (fun c => map corev1.cp_ContainerPort (corev1.c_Ports c)) cs.

Definition portNames (cs : list corev1.Container) : list string :=
  flat_map (fun c => map corev1.cp_Name (corev1.c_Ports c)) cs.

(** A string of decimal digits and nothing else, as a number. *)
Definition parseDecimal (s : string) : option Z :=
  let '(n, count, rest) := resource.parseDigits 0 0 s in
  match count, rest with
  | S _, EmptyString => Some n
  | _, _ => None
  end.

(** The word that follows a flag on a command line. *)
Fixpoint flagValue (flag : string) (args : list string) : option string :=
  match args with
  | a :: rest =>
      if String.eqb a flag then head rest else flagValue flag rest
  | [] => None
  end.

Definition sysctlValue (name : string) (sset : appsv1.StatefulSet) : option string :=
  match corev1.ps_SecurityContext (podSpec sset) with
  | Some psc =>
      match List.find (fun s => String.eqb (corev1.sysctl_Name s) name)
                      (corev1.psc_Sysctls psc) with
      | Some s => Some (corev1.sysctl_Value s)
      | None => None
      end
  | None => None
  end.

(** The lowest port a process without privileges may bind in the pod. *)
Definition unprivilegedPortStart (sset : appsv1.StatefulSet) : option Z :=
  match sysctlValue "net.ipv4.ip_unprivileged_port_start" sset with
  | Some v => parseDecimal v
  | None => None
  end.

Definition claimNames (sset : appsv1.StatefulSet) : list string :=
  map corev1.pvc_Name (appsv1.VolumeClaimTemplates (appsv1.Spec sset)).

Definition images (d : swiftv1beta1.SwiftStorage) : list string :=
  let spec := swiftv1beta1.Spec d in
  [ swiftv1beta1.ContainerImageAccount spec;
    swiftv1beta1.ContainerImageContainer spec;
    swiftv1beta1.ContainerImageObject spec;
    swiftv1beta1.ContainerImageProxy spec;
    swiftv1beta1.ContainerImageMemcached spec ].


Definition portConstants (pkg : swift.Pkg) : list Z :=
  [ swift.AccountServerPort pkg;
    swift.ContainerServerPort pkg;
    swift.ObjectServerPort pkg;
    swift.RsyncPort pkg;
    swift.MemcachedPort pkg ].

(** The port a command line asks to listen on with [-p]. *)
Definition listenPort (c : corev1.Container) : option Z :=
  match flagValue "-p" (corev1.c_Command c) with
  | Some v => parseDecimal v
  | None => None
  end.

(** An applier that creates nothing and reports success. *)
Definition idle_applier
  : statefulset.StatefulSet -> helper.Helper -> M (ctrl.Result * option error) :=
  fun _ _ => ret (ctrl.Result_zero, None).

(** An applier that asks to be called again after its timeout. *)
Definition waiting_applier
  : statefulset.StatefulSet -> helper.Helper -> M (ctrl.Result * option error) :=
  fun sset _ =>
    ret ({| ctrl.Requeue := false;
            ctrl.RequeueAfter := statefulset.timeout sset |}, None).

(** A pass in which the helper cannot be made. *)
Definition helper_broken : Faults :=
  {| get_fault := None; helper_fault := Some timeout_error; lookup_fault := None;
     create_fault := None; patch_response := WriteSuccess |}.

(** * Properties of the synthesizer *)

Section SynthesizerFacts.

Context (pkg : swift.Pkg).

Lemma MustParse_1Gi :
  resource.MustParse "1Gi" = Return (resource.MkQuantity 1 resource.Gi).
Proof. reflexivity. Qed.

Lemma MustParse_empty_panics : exists msg, resource.MustParse "" = Panic msg.
Proof. eexists. reflexivity. Qed.

(** The synthesizer returns: the one call that can panic does not. *)
Lemma getStorageStatefulSet_returns d ls :
  exists sset, getStorageStatefulSet pkg d ls = Return sset.
Proof. unfold getStorageStatefulSet. rewrite MustParse_1Gi. eexists. reflexivity. Qed.

Lemma getStorageStatefulSet_identity d ls sset :
  getStorageStatefulSet pkg d ls = Return sset ->
  applier.identity sset = applier.owner_key d.
Proof.
  unfold getStorageStatefulSet. rewrite MustParse_1Gi. cbn.
  intros [= <-]. reflexivity.
Qed.

End SynthesizerFacts.

Lemma length_append (a b : string) :
  String.length (a +:+ b) = (String.length a + String.length b)%nat.
Proof. induction a as [|c a IH]; simpl; [reflexivity | f_equal; exact IH]. Qed.

(** A name with the suffix of the configuration object is never the short
    name of the ring object of scenario A. *)
Lemma config_data_name_not_ring1 (name : string) :
  String.eqb (name +:+ "-config-data") "ring-1" = false.
Proof.
  apply String.eqb_neq. intros H.
  apply (f_equal String.length) in H. rewrite length_append in H.
  cbn in H. lia.
Qed.



(** C1 (as stated) fails: the claim gives every domain a server, a
    replicator, an auditor and an updater, but the account domain has no
    updater among the synthesized containers. *)
Lemma C1_account_has_no_updater :
  ~ (forall dmn role : string,
       In dmn domains -> In role domain_roles ->
       exists c, In c (getStorageContainers sample_pkg scenarioA)
                 /\ corev1.c_Name c = role_name dmn role)
  /\ spec_role_table (getStorageContainers sample_pkg scenarioA) = false.
Proof.
  split; [| vm_compute; reflexivity].
  intros H.
  destruct (H "account" "updater") as (c & Hin & Hname); [cbn; auto .. |].
  cbn in Hin. decompose [or] Hin; subst; try discriminate Hname; contradiction.
Qed.

(** C1 (amended). For every SwiftStorage the pod template has exactly one
    init container, [swift-init], which runs on the account image and copies
    the default configuration and the rings into [/etc/swift]; it is followed
    by fifteen containers in a fixed order: server, replicator, auditor and
    reaper of the account domain on the account image; server, replicator,
    auditor and updater of the container domain on the container image;
    server, replicator, auditor and updater of the object domain on the
    object image; the object expirer on the proxy image, rsync on the object
    image and memcached on the memcached image. *)
Theorem C1_role_table
    (pkg : swift.Pkg) (d : swiftv1beta1.SwiftStorage) (labels : gmap string string) :
  exists sset,
    getStorageStatefulSet pkg d labels = Return sset
    /\ (let spec := swiftv1beta1.Spec d in
        let account := swiftv1beta1.ContainerImageAccount spec in
        let container := swiftv1beta1.ContainerImageContainer spec in
        let object := swiftv1beta1.ContainerImageObject spec in
        let proxy := swiftv1beta1.ContainerImageProxy spec in
        let memcached := swiftv1beta1.ContainerImageMemcached spec in
        map name_image (corev1.ps_InitContainers (podSpec sset))
          = [ ("swift-init", account) ]
        /\ map corev1.c_Command (corev1.ps_InitContainers (podSpec sset))
          = [ [ "/bin/sh"; "-c";
                "cp -t /etc/swift/ /var/lib/config-data/default/* /var/lib/config-data/rings/*" ] ]
        /\ map name_image (corev1.ps_Containers (podSpec sset))
          = [ ("account-server", account);
              ("account-replicator", account);
              ("account-auditor", account);
              ("account-reaper", account);
              ("container-server", container);
              ("container-replicator", container);
              ("container-auditor", container);
              ("container-updater", container);
              ("object-server", object);
              ("object-replicator", object);
              ("object-auditor", object);
              ("object-updater", object);
              ("object-expirer", proxy);
              ("rsync", object);
              ("memcached", memcached) ]).
Proof.
  eexists. split; [reflexivity |]. cbn. repeat split.
Qed.

(** C3. The replica count of the synthesized StatefulSet is the replica
    count of the SwiftStorage, whatever its value; and a SwiftStorage with
    three replicas, storage class "fast" and ring ConfigMap "ring-1"
    synthesizes three replicas, exactly one volume claim template, bound to
    "fast", exactly one init container, and exactly one volume sourced from
    "ring-1". *)
Theorem C3_replicas_verbatim
    (pkg : swift.Pkg) (d : swiftv1beta1.SwiftStorage) (labels : gmap string string) :
  exists sset,
    getStorageStatefulSet pkg d labels = Return sset
    /\ appsv1.Replicas (appsv1.Spec sset)
       = Some (swiftv1beta1.Replicas (swiftv1beta1.Spec d))
    /\ (swiftv1beta1.Replicas (swiftv1beta1.Spec d) = 3 ->
        swiftv1beta1.StorageClassName (swiftv1beta1.Spec d) = "fast" ->
        swiftv1beta1.SwiftRingConfigMap (swiftv1beta1.Spec d) = "ring-1" ->
        appsv1.Replicas (appsv1.Spec sset) = Some 3
        /\ map (fun t => corev1.pvcs_StorageClassName (corev1.pvc_Spec t))
               (appsv1.VolumeClaimTemplates (appsv1.Spec sset))
           = [ Some "fast" ]
        /\ length (corev1.ps_InitContainers (podSpec sset)) = 1%nat
        /\ List.filter (sourced_from_configmap "ring-1")
                       (corev1.ps_Volumes (podSpec sset))
           = [ {| corev1.vol_Name := "ring-data";
                  corev1.vol_VolumeSource := corev1.ConfigMapVolumeSource "ring-1" |} ]).
Proof.
  eexists. split; [reflexivity |]. split; [reflexivity |].
  intros Hr Hs Hg. cbn. rewrite Hr, Hs, Hg.
  repeat split.
  unfold sourced_from_configmap; cbn.
  rewrite config_data_name_not_ring1. reflexivity.
Qed.

Lemma C3_replicas_verbatim_witness :
  exists sset,
    getStorageStatefulSet sample_pkg scenarioA ∅ = Return sset
    /\ appsv1.Replicas (appsv1.Spec sset) = Some 3
    /\ length (appsv1.VolumeClaimTemplates (appsv1.Spec sset)) = 1%nat
    /\ length (corev1.ps_InitContainers (podSpec sset)) = 1%nat
    /\ length (List.filter (sourced_from_configmap "ring-1")
                           (corev1.ps_Volumes (podSpec sset))) = 1%nat.
Proof.
  destruct (C3_replicas_verbatim sample_pkg scenarioA ∅)
    as (sset & Hs & _ & Hscenario).
  destruct Hscenario as (Hr & Hpvc & Hinit & Hring); [reflexivity .. |].
  exists sset. repeat split; try assumption.
  - apply (f_equal (@length _)) in Hpvc. rewrite length_map in Hpvc. exact Hpvc.
  - rewrite Hring. reflexivity.
Defined.


(** C8. The pod-level security context is the same for every SwiftStorage:
    it requires non-root execution, sets the group of the volumes to the
    fixed numeric identity of package [swift], changes group ownership only
    when the root of a volume does not match, confines the pod with the
    runtime-default seccomp profile, and lowers the floor of the unprivileged
    ports to 873. *)
Theorem C8_pod_security_posture
    (pkg : swift.Pkg) (d : swiftv1beta1.SwiftStorage) (labels : gmap string string) :
  exists sset,
    getStorageStatefulSet pkg d labels = Return sset
    /\ corev1.ps_SecurityContext (podSpec sset)
       = Some
           {| corev1.psc_RunAsUser := None;
              corev1.psc_RunAsGroup := None;
              corev1.psc_RunAsNonRoot := Some true;
              corev1.psc_FSGroup := Some (swift.RunAsUser pkg);
              corev1.psc_FSGroupChangePolicy :=
                Some corev1.FSGroupChangeOnRootMismatch;
              corev1.psc_Sysctls :=
                [ {| corev1.sysctl_Name := "net.ipv4.ip_unprivileged_port_start";
                     corev1.sysctl_Value := "873" |} ];
              corev1.psc_SeccompProfile :=
                Some {| corev1.sp_Type := corev1.SeccompProfileTypeRuntimeDefault |} |}
    /\ (forall c,
          In c (corev1.ps_InitContainers (podSpec sset)
                ++ corev1.ps_Containers (podSpec sset)) ->
          corev1.c_SecurityContext c = Some (swift.GetSecurityContext pkg)).
Proof.
  eexists. split; [reflexivity |]. split; [reflexivity |].
  intros c Hin. cbn in Hin.
  repeat (destruct Hin as [<- | Hin]; [reflexivity |]). contradiction.
Qed.


(** C10. Among the synthesized containers, [container-auditor] and
    [container-updater] launch [/usr/bin/swift-container-replicator],
    [object-auditor] and [object-updater] launch
    [/usr/bin/swift-object-replicator], no container launches an auditor or
    an updater binary of the container or the object domain, and
    [account-auditor] launches [/usr/bin/swift-account-auditor]. *)
Theorem C10_auditor_updater_binaries
    (pkg : swift.Pkg) (d : swiftv1beta1.SwiftStorage) (labels : gmap string string) :
  exists sset,
    getStorageStatefulSet pkg d labels = Return sset
    /\ (let cs := corev1.ps_Containers (podSpec sset) in
        map binary (named "container-auditor" cs)
          = [ Some "/usr/bin/swift-container-replicator" ]
        /\ map binary (named "container-updater" cs)
          = [ Some "/usr/bin/swift-container-replicator" ]
        /\ map binary (named "object-auditor" cs)
          = [ Some "/usr/bin/swift-object-replicator" ]
        /\ map binary (named "object-updater" cs)
          = [ Some "/usr/bin/swift-object-replicator" ]
        /\ map binary (named "account-auditor" cs)
          = [ Some "/usr/bin/swift-account-auditor" ]
        /\ (forall c, In c cs ->
              binary c <> Some "/usr/bin/swift-container-auditor"
              /\ binary c <> Some "/usr/bin/swift-container-updater"
              /\ binary c <> Some "/usr/bin/swift-object-auditor"
              /\ binary c <> Some "/usr/bin/swift-object-updater")).
Proof.
  eexists. split; [reflexivity |]. cbn zeta.
  repeat (split; [vm_compute; reflexivity |]).
  intros c Hin. cbn in Hin.
  repeat (destruct Hin as [<- | Hin]; [repeat split; discriminate |]).
  contradiction.
Qed.

(** * Properties of the reconcile pass *)

Lemma Get_eq (env : Faults) (key : ctrl.NamespacedName) (w : World) :
  Get env key w
  = Return (match get_fault env with
            | Some err => inr err
            | None =>
                match swiftstorages w !! key with
                | Some instance => inl instance
                | None => inr not_found_error
                end
            end,
            with_call (ApiGetSwiftStorage key) w).
Proof.
  unfold Get, bind, record_call, with_call. cbn.
  destruct (get_fault env); [reflexivity |].
  destruct (swiftstorages w !! key); reflexivity.
Qed.

Lemma Get_world (env : Faults) (key : ctrl.NamespacedName) (w w1 : World) got :
  Get env key w = Return (got, w1) -> w1 = with_call (ApiGetSwiftStorage key) w.
Proof. rewrite Get_eq. intros [= _ <-]. reflexivity. Qed.

Section ReconcileFacts.

Context (pkg : swift.Pkg).
Context (CreateOrPatch :
           statefulset.StatefulSet -> helper.Helper -> M (ctrl.Result * option error)).
Context (env : Faults) (req : ctrl.Request).

Lemma Reconcile_not_found (w w1 : World) (err : error) :
  Get env (ctrl.req_NamespacedName req) w = Return (inr err, w1) ->
  apierrors.IsNotFound err = true ->
  Reconcile pkg CreateOrPatch env req w
  = Return ((ctrl.Result_zero, None),
            with_log (LogInfo "SwiftStorage resource not found. Ignoring since object must be deleted") w1).
Proof.
  intros HGet Hnf. unfold Reconcile. unfold bind at 1. rewrite HGet, Hnf.
  reflexivity.
Qed.

Lemma Reconcile_fetch_error (w w1 : World) (err : error) :
  Get env (ctrl.req_NamespacedName req) w = Return (inr err, w1) ->
  apierrors.IsNotFound err = false ->
  Reconcile pkg CreateOrPatch env req w
  = Return ((ctrl.Result_zero, Some err),
            with_log (LogError err "Failed to get SwiftStorage") w1).
Proof.
  intros HGet Hnf. unfold Reconcile. unfold bind at 1. rewrite HGet, Hnf.
  reflexivity.
Qed.

Lemma Reconcile_helper_error (w w1 : World) instance (err : error) :
  Get env (ctrl.req_NamespacedName req) w = Return (inl instance, w1) ->
  helper_fault env = Some err ->
  Reconcile pkg CreateOrPatch env req w = Return ((ctrl.Result_zero, Some err), w1).
Proof.
  intros HGet Hh. unfold Reconcile. unfold bind at 1. rewrite HGet.
  unfold helper.NewHelper. rewrite Hh. reflexivity.
Qed.

(** Whatever the applier returns is what the pass returns, and after the
    applier the pass touches nothing but the log. *)
Lemma Reconcile_applied (w w1 w2 : World) instance target res err :
  Get env (ctrl.req_NamespacedName req) w = Return (inl instance, w1) ->
  helper_fault env = None ->
  getStorageStatefulSet pkg instance (swift.GetLabelsStorage pkg) = Return target ->
  CreateOrPatch (statefulset.NewStatefulSet target 5)
                {| helper.beforeObject := instance |} w1
    = Return ((res, err), w2) ->
  exists w3,
    Reconcile pkg CreateOrPatch env req w = Return ((res, err), w3)
    /\ swiftstorages w3 = swiftstorages w2
    /\ statefulsets w3 = statefulsets w2
    /\ calls w3 = calls w2.
Proof.
  intros HGet Hh Htarget Happly. unfold Reconcile. unfold bind at 1. rewrite HGet.
  unfold helper.NewHelper. rewrite Hh. cbn zeta.
  unfold bind at 1. unfold liftGo. rewrite Htarget. cbn [go_map go_bind].
  unfold bind at 1. rewrite Happly.
  destruct err as [e |].
  - eexists. split; [reflexivity |]. repeat split.
  - case_bool_decide.
    + eexists. split; [reflexivity |]. repeat split.
    + assert (res = ctrl.Result_zero) as ->
        by (destruct (decide (res = ctrl.Result_zero)); [assumption | contradiction]).
      eexists. split; [reflexivity |]. repeat split.
Qed.

End ReconcileFacts.

(** C7. When the fetch of the SwiftStorage fails with a not-found error the
    pass returns the zero result and no error, which ends the pass, and its
    only effects are the fetch itself and one log line: the result does not
    depend on the applier, so nothing is synthesized or applied.  When the
    fetch fails with any other error the pass returns that error, which
    requeues the request with backoff. *)
Theorem C7_fetch_failure
    (pkg : swift.Pkg)
    (CreateOrPatch :
       statefulset.StatefulSet -> helper.Helper -> M (ctrl.Result * option error))
    (env : Faults) (req : ctrl.Request) (w w1 : World) (err : error) :
  Get env (ctrl.req_NamespacedName req) w = Return (inr err, w1) ->
  exists r w',
    Reconcile pkg CreateOrPatch env req w = Return (r, w')
    /\ swiftstorages w' = swiftstorages w
    /\ statefulsets w' = statefulsets w
    /\ calls w' = (calls w ++ [ ApiGetSwiftStorage (ctrl.req_NamespacedName req) ])%list
    /\ (apierrors.IsNotFound err = true ->
        r = (ctrl.Result_zero, None) /\ directive r = Done)
    /\ (apierrors.IsNotFound err = false ->
        r = (ctrl.Result_zero, Some err) /\ directive r = RequeueError err).
Proof.
  intros HGet. pose proof (Get_world _ _ _ _ _ HGet) as ->.
  destruct (apierrors.IsNotFound err) eqn:Hnf.
  - eexists _, _. split; [eapply Reconcile_not_found; eassumption |].
    cbn. repeat split; intros; discriminate.
  - eexists _, _. split; [eapply Reconcile_fetch_error; eassumption |].
    cbn. repeat split; intros; discriminate.
Qed.

(** A fetch that times out requeues the request with the error. *)
Example fetch_timeout_requeues :
  go_map (fun '(r, w) => (directive r, calls w, statefulsets w))
         (Reconcile sample_pkg (fun _ _ _ => Panic "apply attempted") fetch_timeout
                    scenarioA_request scenarioA_world)
  = Return (RequeueError timeout_error,
            [ ApiGetSwiftStorage ("openstack", "swift-storage") ], ∅).
Proof. reflexivity. Qed.

Lemma C7_fetch_failure_witness :
  exists r w',
    Reconcile sample_pkg (fun _ _ _ => Panic "apply attempted") no_faults
              scenarioA_request empty_world = Return (r, w')
    /\ r = (ctrl.Result_zero, None)
    /\ statefulsets w' = ∅.
Proof.
  destruct (C7_fetch_failure sample_pkg (fun _ _ _ => Panic "apply attempted")
              no_faults scenarioA_request empty_world
              (with_call (ApiGetSwiftStorage ("openstack", "swift-storage")) empty_world)
              not_found_error)
    as (r & w' & HR & _ & Hs & _ & Hnf & _); [reflexivity |].
  exists r, w'. split; [exact HR |]. split; [apply Hnf; reflexivity | exact Hs].
Defined.

(** * Properties of the applier and of repeated passes *)

Section ApplierFacts.

Context (env : Faults) (target : appsv1.StatefulSet)
        (owner : swiftv1beta1.SwiftStorage).

Local Abbreviation key := (applier.identity target).

Local Ltac run_apply :=
  unfold applier.apply, bind, record_call, ret, applier.lookup_live,
    put_statefulset, with_call; cbn -[lookup insert applier.identity];
  cbn [statefulsets swiftstorages calls log].

Local Ltac step H := rewrite H; cbn [statefulsets swiftstorages calls log].

Lemma apply_lookup_failed (w : World) (err : error) :
  lookup_fault env = Some err ->
  applier.apply env target owner w
  = Return (applier.Error err, with_call (ApiGetStatefulSet key) w).
Proof. intros H. run_apply. rewrite H. reflexivity. Qed.

Lemma apply_equal (w : World) (live : LiveObject) :
  lookup_fault env = None ->
  statefulsets w !! key = Some live ->
  live_managed live = target ->
  applier.apply env target owner w
  = Return (applier.Unchanged, with_call (ApiGetStatefulSet key) w).
Proof.
  intros Hl Hlive Heq. run_apply. step Hl. step Hlive.
  rewrite bool_decide_eq_true_2 by exact Heq. reflexivity.
Qed.

Lemma apply_divergent (w : World) (live : LiveObject) :
  lookup_fault env = None ->
  statefulsets w !! key = Some live ->
  live_managed live <> target ->
  exists w',
    applier.apply env target owner w
    = Return (match patch_response env with
              | WriteSuccess => applier.Patched
              | WriteConflict => applier.Retry
              | WriteError err => applier.Error err
              end, w')
    /\ swiftstorages w' = swiftstorages w
    /\ calls w' = (calls w ++ [ ApiGetStatefulSet key; ApiPatchStatefulSet key ])%list
    /\ statefulsets w'
       = match patch_response env with
         | WriteSuccess =>
             <[ key := {| live_managed := target;
                          live_owner := live_owner live;
                          live_unmanaged := live_unmanaged live |} ]>
               (statefulsets w)
         | _ => statefulsets w
         end.
Proof.
  intros Hl Hlive Hne. run_apply. step Hl. step Hlive.
  rewrite bool_decide_eq_false_2 by exact Hne.
  destruct (patch_response env); eexists; (split; [reflexivity |]); cbn;
    rewrite <- app_assoc; repeat split.
Qed.

Lemma apply_absent (w : World) :
  lookup_fault env = None ->
  statefulsets w !! key = None ->
  exists w',
    applier.apply env target owner w
    = Return (match create_fault env with
              | None => applier.Created
              | Some err => applier.Error err
              end, w')
    /\ swiftstorages w' = swiftstorages w
    /\ calls w' = (calls w ++ [ ApiGetStatefulSet key; ApiCreateStatefulSet key ])%list
    /\ statefulsets w'
       = match create_fault env with
         | None =>
             <[ key := {| live_managed := target;
                          live_owner := Some (applier.owner_key owner);
                          live_unmanaged := ∅ |} ]>
               (statefulsets w)
         | Some _ => statefulsets w
         end.
Proof.
  intros Hl Hlive. run_apply. step Hl. step Hlive.
  destruct (create_fault env); eexists; (split; [reflexivity |]); cbn;
    rewrite <- app_assoc; repeat split.
Qed.

(** The applier never panics, never touches the SwiftStorage records, and
    after a successful application the live object carries the target. *)
Lemma apply_returns (w : World) :
  exists o w',
    applier.apply env target owner w = Return (o, w')
    /\ swiftstorages w' = swiftstorages w
    /\ (applier.succeeded o = true ->
        exists live, statefulsets w' !! key = Some live
                     /\ live_managed live = target).
Proof.
  destruct (lookup_fault env) as [err |] eqn:Hl.
  - eexists _, _. split; [apply apply_lookup_failed; exact Hl |].
    split; [reflexivity | discriminate].
  - destruct (statefulsets w !! key) as [live |] eqn:Hlive.
    + destruct (decide (live_managed live = target)) as [Heq | Hne].
      * eexists _, _. split; [eapply apply_equal; eassumption |].
        split; [reflexivity |]. intros _. exists live. split; assumption.
      * destruct (apply_divergent w live Hl Hlive Hne) as (w' & Ha & Hs & _ & Hst).
        eexists _, _. split; [exact Ha |]. split; [exact Hs |].
        rewrite Hst. destruct (patch_response env); try discriminate.
        intros _. eexists. rewrite lookup_insert_eq. split; reflexivity.
    + destruct (apply_absent w Hl Hlive) as (w' & Ha & Hs & _ & Hst).
      eexists _, _. split; [exact Ha |]. split; [exact Hs |].
      rewrite Hst. destruct (create_fault env); try discriminate.
      intros _. eexists. rewrite lookup_insert_eq. split; reflexivity.
Qed.

End ApplierFacts.

(** C6. Once the SwiftStorage is fetched and the target synthesized, the
    directive of the pass is decided by the outcome of the applier alone:
    created, unchanged and patched end the pass with no requeue; a retry
    requeues at once; an error requeues with that error.  In particular a
    patch that the cluster rejects for a conflict gives a retry, so the pass
    requeues at once and neither ends nor reports an error. *)
Theorem C6_outcome_directive
    (pkg : swift.Pkg) (env : Faults) (req : ctrl.Request) (w w1 w2 : World)
    (instance : swiftv1beta1.SwiftStorage) (target : appsv1.StatefulSet)
    (outcome : applier.ReconcileOutcome) :
  Get env (ctrl.req_NamespacedName req) w = Return (inl instance, w1) ->
  helper_fault env = None ->
  getStorageStatefulSet pkg instance (swift.GetLabelsStorage pkg) = Return target ->
  applier.apply env target instance w1 = Return (outcome, w2) ->
  exists r w3,
    Reconcile pkg (applier.CreateOrPatch env) env req w = Return (r, w3)
    /\ statefulsets w3 = statefulsets w2
    /\ directive r
       = match outcome with
         | applier.Created | applier.Unchanged | applier.Patched => Done
         | applier.Retry => RequeueNow
         | applier.Error err => RequeueError err
         end
    /\ (forall live,
          lookup_fault env = None ->
          statefulsets w1 !! applier.identity target = Some live ->
          live_managed live <> target ->
          patch_response env = WriteConflict ->
          outcome = applier.Retry
          /\ directive r = RequeueNow
          /\ statefulsets w3 = statefulsets w1).
Proof.
  intros HGet Hh Htarget Happly.
  assert (applier.CreateOrPatch env (statefulset.NewStatefulSet target 5)
            {| helper.beforeObject := instance |} w1
          = Return (applier.outcome_result outcome, w2)) as HCoP.
  { unfold applier.CreateOrPatch, bind. cbn [statefulset.NewStatefulSet
      statefulset.statefulset helper.beforeObject]. rewrite Happly. reflexivity. }
  destruct (applier.outcome_result outcome) as [res err] eqn:Hres.
  destruct (Reconcile_applied pkg _ env req w w1 w2 instance target res err
              HGet Hh Htarget HCoP) as (w3 & HR & _ & Hst & _).
  exists (res, err), w3. split; [exact HR |]. split; [exact Hst |].
  assert (directive (res, err)
          = match outcome with
            | applier.Created | applier.Unchanged | applier.Patched => Done
            | applier.Retry => RequeueNow
            | applier.Error e => RequeueError e
            end) as Hdir.
  { rewrite <- Hres. destruct outcome; reflexivity. }
  split; [exact Hdir |].
  intros live Hl Hlive Hne Hconf.
  destruct (apply_divergent env target instance w1 live Hl Hlive Hne)
    as (w' & Ha & _ & _ & Hst').
  rewrite Hconf in Ha, Hst'. rewrite Happly in Ha.
  injection Ha as -> ->.
  split; [reflexivity |]. split; [exact Hdir |]. congruence.
Qed.

Lemma C6_outcome_directive_witness :
  exists r w3,
    Reconcile sample_pkg (applier.CreateOrPatch conflict_faults) conflict_faults
              scenarioA_request stale_world = Return (r, w3)
    /\ directive r = RequeueNow
    /\ statefulsets w3 = statefulsets stale_world.
Proof.
  edestruct C6_outcome_directive
    with (pkg := sample_pkg) (env := conflict_faults) (req := scenarioA_request)
         (w := stale_world) (instance := scenarioA) (outcome := applier.Retry)
    as (r & w3 & HR & Hst & Hdir & _);
    [ vm_compute; reflexivity | reflexivity | reflexivity
    | vm_compute; reflexivity | ].
  exists r, w3. split; [exact HR |]. split; [exact Hdir |].
  rewrite Hst. reflexivity.
Defined.

(** After a successful application a second one finds nothing to do. *)
Lemma apply_twice_unchanged
    (env1 env2 : Faults) (target : appsv1.StatefulSet)
    (owner : swiftv1beta1.SwiftStorage) (w w1 : World)
    (o1 : applier.ReconcileOutcome) :
  applier.apply env1 target owner w = Return (o1, w1) ->
  applier.succeeded o1 = true ->
  lookup_fault env2 = None ->
  applier.apply env2 target owner w1
  = Return (applier.Unchanged,
            with_call (ApiGetStatefulSet (applier.identity target)) w1).
Proof.
  intros H1 Hok Hl.
  destruct (apply_returns env1 target owner w) as (o & w' & Ha & _ & Hlive).
  rewrite H1 in Ha. injection Ha as <- <-.
  destruct (Hlive Hok) as (live & Hlook & Heq).
  eapply apply_equal; eassumption.
Qed.

Section LoopFacts.

Context (pkg : swift.Pkg) (d : swiftv1beta1.SwiftStorage)
        (target : appsv1.StatefulSet).

Local Abbreviation key := (applier.owner_key d).
Local Abbreviation req := {| ctrl.req_NamespacedName := applier.owner_key d |}.
Local Abbreviation pass :=
  (Reconcile pkg (applier.CreateOrPatch no_faults) no_faults req).
Local Abbreviation fetched w := (with_call (ApiGetSwiftStorage key) w).

Hypothesis Htarget :
  getStorageStatefulSet pkg d (swift.GetLabelsStorage pkg) = Return target.

Lemma target_key : applier.identity target = key.
Proof. eapply getStorageStatefulSet_identity, Htarget. Qed.

Lemma Get_present (w : World) :
  swiftstorages w !! key = Some d ->
  Get no_faults key w = Return (inl d, with_call (ApiGetSwiftStorage key) w).
Proof. intros H. rewrite Get_eq. cbn [get_fault no_faults]. rewrite H. reflexivity. Qed.

(** An undisturbed pass ends with the zero result and leaves a live object
    that carries the target; no other live object is touched. *)
Lemma pass_applies (w : World) :
  swiftstorages w !! key = Some d ->
  exists w' live,
    pass w = Return ((ctrl.Result_zero, None), w')
    /\ swiftstorages w' = swiftstorages w
    /\ statefulsets w' = <[ key := live ]> (statefulsets w)
    /\ live_managed live = target.
Proof.
  intros Hd. pose proof (Get_present w Hd) as HGet.
  assert (exists o w2 live,
             applier.apply no_faults target d (fetched w) = Return (o, w2)
             /\ applier.succeeded o = true
             /\ swiftstorages w2 = swiftstorages w
             /\ statefulsets w2 = <[ key := live ]> (statefulsets w)
             /\ live_managed live = target) as (o & w2 & live & Ha & Hok & Hs & Hst & Hm).
  { destruct (statefulsets (fetched w) !! applier.identity target)
      as [live |] eqn:Hlive.
    - destruct (decide (live_managed live = target)) as [Heq | Hne].
      + exists applier.Unchanged, (with_call (ApiGetStatefulSet (applier.identity target)) (fetched w)), live.
        split; [eapply apply_equal; eauto |].
        rewrite target_key in Hlive.
        split; [reflexivity |]. split; [reflexivity |]. split; [| exact Heq].
        symmetry. apply insert_id. exact Hlive.
      + destruct (apply_divergent no_faults target d (fetched w) live eq_refl Hlive Hne)
          as (w2 & Ha & Hs & _ & Hst).
        rewrite target_key in Hst.
        eexists _, w2, _. split; [exact Ha |].
        split; [reflexivity |]. split; [exact Hs |]. split; [exact Hst | reflexivity].
    - destruct (apply_absent no_faults target d (fetched w) eq_refl Hlive)
        as (w2 & Ha & Hs & _ & Hst).
      rewrite target_key in Hst.
      eexists _, w2, _. split; [exact Ha |].
      split; [reflexivity |]. split; [exact Hs |]. split; [exact Hst | reflexivity]. }
  assert (applier.CreateOrPatch no_faults (statefulset.NewStatefulSet target 5)
            {| helper.beforeObject := d |} (fetched w)
          = Return ((ctrl.Result_zero, None), w2)) as HCoP.
  { unfold applier.CreateOrPatch, bind.
    cbn [statefulset.NewStatefulSet statefulset.statefulset helper.beforeObject].
    rewrite Ha. destruct o; try discriminate; reflexivity. }
  destruct (Reconcile_applied pkg _ no_faults req w (fetched w) w2 d target _ _
              HGet eq_refl Htarget HCoP) as (w3 & HR & Hs3 & Hst3 & _).
  exists w3, live. split; [exact HR |]. repeat split; congruence.
Qed.

(** Once the live object carries the target a pass writes nothing. *)
Lemma pass_converged (w : World) (live : LiveObject) :
  swiftstorages w !! key = Some d ->
  statefulsets w !! key = Some live ->
  live_managed live = target ->
  exists w',
    pass w = Return ((ctrl.Result_zero, None), w')
    /\ swiftstorages w' = swiftstorages w
    /\ statefulsets w' = statefulsets w
    /\ List.filter is_write (calls w') = List.filter is_write (calls w).
Proof.
  intros Hd Hlive Hm. pose proof (Get_present w Hd) as HGet.
  assert (applier.CreateOrPatch no_faults (statefulset.NewStatefulSet target 5)
            {| helper.beforeObject := d |} (fetched w)
          = Return ((ctrl.Result_zero, None),
                    with_call (ApiGetStatefulSet (applier.identity target)) (fetched w)))
    as HCoP.
  { unfold applier.CreateOrPatch, bind.
    cbn [statefulset.NewStatefulSet statefulset.statefulset helper.beforeObject].
    rewrite (apply_equal no_faults target d (fetched w) live eq_refl); try assumption.
    - reflexivity.
    - rewrite target_key. exact Hlive. }
  destruct (Reconcile_applied pkg _ no_faults req w (fetched w) _ d target _ _
              HGet eq_refl Htarget HCoP) as (w3 & HR & Hs3 & Hst3 & Hc3).
  exists w3. split; [exact HR |]. split; [exact Hs3 |]. split; [exact Hst3 |].
  rewrite Hc3. cbn. rewrite !List.filter_app. cbn. rewrite !app_nil_r. reflexivity.
Qed.

Lemma loop_converged (n : nat) (w : World) (live : LiveObject) :
  swiftstorages w !! key = Some d ->
  statefulsets w !! key = Some live ->
  live_managed live = target ->
  exists w',
    reconcile_loop pkg req n w
    = Return (replicate n (ctrl.Result_zero, None), w')
    /\ swiftstorages w' = swiftstorages w
    /\ statefulsets w' = statefulsets w
    /\ List.filter is_write (calls w') = List.filter is_write (calls w).
Proof.
  revert w. induction n as [| n IH]; intros w Hd Hlive Hm.
  - exists w. repeat split.
  - destruct (pass_converged w live Hd Hlive Hm) as (w1 & HR & Hs1 & Hst1 & Hc1).
    destruct (IH w1) as (w' & HL & Hs' & Hst' & Hc'); [congruence .. | assumption |].
    exists w'. split.
    + cbn [reconcile_loop]. unfold bind at 1. rewrite HR.
      unfold bind at 1. rewrite HL. reflexivity.
    + repeat split; congruence.
Qed.

End LoopFacts.

(** C5. Reconciliation is idempotent.  For a SwiftStorage that is present
    in the cluster and passes that the environment does not disturb: (1) for
    the synthesized target, an application that follows a successful one
    answers unchanged and leaves the live objects as they are; (2) the first
    pass ends with the zero result and leaves a live object that carries the
    target; any number of further passes end with the zero result, leave the
    live objects as they are and issue no create and no patch; and when the
    cluster held no live object at the start it holds exactly one after any
    number of passes. *)
Theorem C5_reconcile_idempotent
    (pkg : swift.Pkg) (d : swiftv1beta1.SwiftStorage) (w : World) (n : nat) :
  let key := applier.owner_key d in
  let req := {| ctrl.req_NamespacedName := key |} in
  swiftstorages w !! key = Some d ->
  exists target live w1 wn,
    getStorageStatefulSet pkg d (swift.GetLabelsStorage pkg) = Return target
    /\ (forall env1 env2 v v1 o1,
          applier.apply env1 target d v = Return (o1, v1) ->
          applier.succeeded o1 = true ->
          lookup_fault env2 = None ->
          exists v2,
            applier.apply env2 target d v1 = Return (applier.Unchanged, v2)
            /\ statefulsets v2 = statefulsets v1)
    /\ Reconcile pkg (applier.CreateOrPatch no_faults) no_faults req w
       = Return ((ctrl.Result_zero, None), w1)
    /\ statefulsets w1 = <[ key := live ]> (statefulsets w)
    /\ live_managed live = target
    /\ reconcile_loop pkg req n w1
       = Return (replicate n (ctrl.Result_zero, None), wn)
    /\ reconcile_loop pkg req (S n) w
       = Return (replicate (S n) (ctrl.Result_zero, None), wn)
    /\ statefulsets wn = statefulsets w1
    /\ List.filter is_write (calls wn) = List.filter is_write (calls w1)
    /\ (statefulsets w = ∅ ->
        statefulsets wn = {[ key := live ]} /\ size (statefulsets wn) = 1%nat).
Proof.
  cbv zeta. intros Hd.
  destruct (getStorageStatefulSet_returns pkg d (swift.GetLabelsStorage pkg))
    as [target Htarget].
  destruct (pass_applies pkg d target Htarget w Hd) as (w1 & live & HR & Hs1 & Hst1 & Hm).
  assert (statefulsets w1 !! applier.owner_key d = Some live) as Hlive
    by (rewrite Hst1; apply lookup_insert_eq).
  destruct (loop_converged pkg d target Htarget n w1 live) as (wn & HL & _ & Hstn & Hcn);
    [rewrite Hs1; exact Hd | assumption | assumption |].
  exists target, live, w1, wn.
  split; [exact Htarget |]. split.
  { intros env1 env2 v v1 o1 H1 Hok Hl. eexists. split.
    - eapply apply_twice_unchanged; eassumption.
    - reflexivity. }
  split; [exact HR |]. split; [exact Hst1 |]. split; [exact Hm |].
  split; [exact HL |]. split.
  { cbn [reconcile_loop]. unfold bind at 1. rewrite HR.
    unfold bind at 1. rewrite HL. reflexivity. }
  split; [exact Hstn |]. split; [exact Hcn |].
  intros Hempty. rewrite Hstn, Hst1, Hempty, insert_empty.
  split; [reflexivity | apply map_size_singleton].
Qed.

Lemma C5_reconcile_idempotent_witness :
  exists wn,
    reconcile_loop sample_pkg scenarioA_request 3 scenarioA_world
    = Return (replicate 3 (ctrl.Result_zero, None), wn)
    /\ size (statefulsets wn) = 1%nat.
Proof.
  destruct (C5_reconcile_idempotent sample_pkg scenarioA scenarioA_world 2)
    as (target & live & w1 & wn & _ & _ & _ & _ & _ & _ & HL & _ & _ & Hone);
    [reflexivity |].
  exists wn. split; [exact HL |]. apply Hone. reflexivity.
Defined.

(** Three passes over scenario A on an empty cluster: one create, no patch. *)
Example scenarioA_three_passes :
  go_map (fun '(rs, w) => (map directive rs, List.filter is_write (calls w),
                           size (statefulsets w)))
         (reconcile_loop sample_pkg scenarioA_request 3 scenarioA_world)
  = Return ([ Done; Done; Done ],
            [ ApiCreateStatefulSet ("openstack", "swift-storage") ],
            1%nat).
Proof. vm_compute. reflexivity. Qed.

(** A pass that meets a stale StatefulSet patches it; the next one is quiet. *)
Example stale_world_two_passes :
  go_map (fun '(rs, w) => (map directive rs, List.filter is_write (calls w)))
         (reconcile_loop sample_pkg scenarioA_request 2 stale_world)
  = Return ([ Done; Done ],
            [ ApiPatchStatefulSet ("openstack", "swift-storage") ]).
Proof. vm_compute. reflexivity. Qed.

(** * Further properties of the synthesizer *)

Lemma append_inv_tail (a b s : string) : a +:+ s = b +:+ s -> a = b.
Proof.
  revert b. induction a as [| c a IH]; intros [| c' b] H.
  - reflexivity.
  - apply (f_equal String.length) in H.
    rewrite !length_append in H. simpl in H. lia.
  - apply (f_equal String.length) in H.
    rewrite !length_append in H. simpl in H. lia.
  - simpl in H. injection H as -> H. f_equal. apply IH, H.
Qed.

Local Ltac each_container Hin tac :=
  cbn in Hin; repeat (destruct Hin as [<- | Hin]; [tac |]); try contradiction.

(** X1. The synthesizer is injective: two SwiftStorage values, with their
    label tables, that synthesize the same StatefulSet are the same, so every
    field of the SwiftStorage can be read back from the target. *)
Theorem X1_synthesis_injective
    (pkg : swift.Pkg) (d1 d2 : swiftv1beta1.SwiftStorage)
    (l1 l2 : gmap string string) :
  getStorageStatefulSet pkg d1 l1 = getStorageStatefulSet pkg d2 l2 ->
  d1 = d2 /\ l1 = l2.
Proof.
  destruct d1 as [n1 ns1 [r1 a1 c1 o1 p1 m1 s1 g1]].
  destruct d2 as [n2 ns2 [r2 a2 c2 o2 p2 m2 s2 g2]].
  unfold getStorageStatefulSet. rewrite MustParse_1Gi. cbn [go_bind].
  intros H.
  pose proof (f_equal (go_map appsv1.Name) H) as En.
  pose proof (f_equal (go_map appsv1.Namespace) H) as Ens.
  pose proof (f_equal (go_map appsv1.Labels) H) as El.
  pose proof (f_equal (go_map (fun s => appsv1.Replicas (appsv1.Spec s))) H) as Er.
  pose proof (f_equal (go_map (fun s => map corev1.c_Image
                                            (corev1.ps_Containers (podSpec s)))) H) as Ei.
  pose proof (f_equal (go_map (fun s => map corev1.vol_VolumeSource
                                            (corev1.ps_Volumes (podSpec s)))) H) as Ev.
  pose proof (f_equal (go_map (fun s => map (fun t => corev1.pvcs_StorageClassName
                                                        (corev1.pvc_Spec t))
                                            (appsv1.VolumeClaimTemplates (appsv1.Spec s))))
                      H) as Es.
  clear H. cbn in En, Ens, El, Er, Ei, Ev, Es.
  injection En as ->. injection Ens as ->. injection El as ->. injection Er as ->.
  injection Es as ->. injection Ev as ->.
  injection Ei. intros. subst.
  split; reflexivity.
Qed.

Lemma X1_synthesis_injective_witness :
  scenarioA = {| swiftv1beta1.Name := "swift-" +:+ "storage";
                 swiftv1beta1.Namespace := "openstack";
                 swiftv1beta1.Spec := swiftv1beta1.Spec scenarioA |}.
Proof.
  apply (X1_synthesis_injective sample_pkg _ _ ∅ ∅). reflexivity.
Defined.

(** X2. The volumes of a pod are decided by the name of the SwiftStorage and
    by its ring ConfigMap, and by nothing else: two SwiftStorage values get
    the same volumes exactly when they agree on both.  In particular two
    SwiftStorage values with different names never share a configuration
    object. *)
Theorem X2_volumes_iff (d1 d2 : swiftv1beta1.SwiftStorage) :
  getStorageVolumes d1 = getStorageVolumes d2
  <-> swiftv1beta1.Name d1 = swiftv1beta1.Name d2
      /\ swiftv1beta1.SwiftRingConfigMap (swiftv1beta1.Spec d1)
         = swiftv1beta1.SwiftRingConfigMap (swiftv1beta1.Spec d2).
Proof.
  unfold getStorageVolumes. split.
  - intros H. injection H as Hn Hg. split; [| exact Hg].
    eapply append_inv_tail, Hn.
  - intros [-> ->]. reflexivity.
Qed.

(** X3. The init container and the fifteen long-running containers are
    decided by the five image references of the SwiftStorage, and by nothing
    else: two SwiftStorage values get the same containers exactly when they
    agree on all five. *)
Theorem X3_containers_iff (pkg : swift.Pkg) (d1 d2 : swiftv1beta1.SwiftStorage) :
  (getStorageInitContainers pkg d1 = getStorageInitContainers pkg d2
   /\ getStorageContainers pkg d1 = getStorageContainers pkg d2)
  <-> images d1 = images d2.
Proof.
  destruct d1 as [n1 ns1 [r1 a1 c1 o1 p1 m1 s1 g1]].
  destruct d2 as [n2 ns2 [r2 a2 c2 o2 p2 m2 s2 g2]].
  unfold images. cbn. split.
  - intros [_ H]. apply (f_equal (map corev1.c_Image)) in H. cbn in H.
    injection H. intros. subst. reflexivity.
  - intros H. injection H as -> -> -> -> ->. split; reflexivity.
Qed.

(** X4. Every volume mount of every container, init container included,
    names a volume that the pod declares, and every volume the pod declares
    is mounted by the init container. *)
Theorem X4_mounts_name_declared_volumes
    (pkg : swift.Pkg) (d : swiftv1beta1.SwiftStorage) (labels : gmap string string) :
  exists sset,
    getStorageStatefulSet pkg d labels = Return sset
    /\ (forall c m,
          In c (allContainers sset) -> In m (corev1.c_VolumeMounts c) ->
          In (corev1.vm_Name m) (map corev1.vol_Name (corev1.ps_Volumes (podSpec sset))))
    /\ (forall c v,
          In c (corev1.ps_InitContainers (podSpec sset)) ->
          In v (corev1.ps_Volumes (podSpec sset)) ->
          In (corev1.vol_Name v) (map corev1.vm_Name (corev1.c_VolumeMounts c))).
Proof.
  eexists. split; [reflexivity |]. split.
  - intros c m Hc Hm.
    each_container Hc ltac:(each_container Hm ltac:(cbn; tauto)).
  - intros c v Hc Hv.
    each_container Hc ltac:(each_container Hv ltac:(cbn; tauto)).
Qed.

(** X5. Every pod volume that is backed by a persistent volume claim names a
    claim that the StatefulSet has a template for, and every claim template
    backs a pod volume. *)
Theorem X5_claim_volumes_have_templates
    (pkg : swift.Pkg) (d : swiftv1beta1.SwiftStorage) (labels : gmap string string) :
  exists sset,
    getStorageStatefulSet pkg d labels = Return sset
    /\ (forall v claim,
          In v (corev1.ps_Volumes (podSpec sset)) ->
          corev1.vol_VolumeSource v = corev1.PersistentVolumeClaimVolumeSource claim ->
          In claim (claimNames sset))
    /\ (forall claim,
          In claim (claimNames sset) ->
          exists v, In v (corev1.ps_Volumes (podSpec sset))
                    /\ corev1.vol_VolumeSource v
                       = corev1.PersistentVolumeClaimVolumeSource claim).
Proof.
  eexists. split; [reflexivity |]. split.
  - intros v claim Hv Hsrc.
    each_container Hv ltac:(cbn in Hsrc; try discriminate Hsrc;
                            injection Hsrc as <-; cbn; tauto).
  - intros claim Hc. cbn in Hc. destruct Hc as [<- | []].
    eexists. split; [left; reflexivity | reflexivity].
Qed.

(** X6. Names do not clash: the sixteen containers of the pod have pairwise
    different names, so have its volumes and its named ports, and no
    container mounts two volumes at the same path. *)
Theorem X6_names_unique
    (pkg : swift.Pkg) (d : swiftv1beta1.SwiftStorage) (labels : gmap string string) :
  exists sset,
    getStorageStatefulSet pkg d labels = Return sset
    /\ NoDup (map corev1.c_Name (allContainers sset))
    /\ NoDup (map corev1.vol_Name (corev1.ps_Volumes (podSpec sset)))
    /\ NoDup (portNames (allContainers sset))
    /\ (forall c, In c (allContainers sset) ->
          NoDup (map corev1.vm_MountPath (corev1.c_VolumeMounts c))).
Proof.
  eexists. split; [reflexivity |].
  split; [apply (bool_decide_unpack _); vm_compute; exact I |].
  split; [apply (bool_decide_unpack _); vm_compute; exact I |].
  split; [apply (bool_decide_unpack _); vm_compute; exact I |].
  intros c Hc.
  each_container Hc ltac:(apply (bool_decide_unpack _); vm_compute; exact I).
Qed.



(** X8. The pod lowers the floor of the unprivileged ports to 873, and the
    declared ports all lie at or above that floor exactly when every port
    constant of package [swift] is at least 873. *)
Theorem X8_ports_above_floor
    (pkg : swift.Pkg) (d : swiftv1beta1.SwiftStorage) (labels : gmap string string) :
  exists sset,
    getStorageStatefulSet pkg d labels = Return sset
    /\ unprivilegedPortStart sset = Some 873
    /\ (Forall (fun p => 873 <= p) (portNumbers (allContainers sset))
        <-> Forall (fun p => 873 <= p) (portConstants pkg)).
Proof.
  eexists. split; [reflexivity |]. split; [reflexivity |]. reflexivity.
Qed.

(** X9. The memcached container is told on its command line to listen on
    port 11211, whatever the port constant is; the port it declares is the
    one it listens on exactly when the constant [swift.MemcachedPort] is
    11211. *)
Theorem X9_memcached_port
    (pkg : swift.Pkg) (d : swiftv1beta1.SwiftStorage) (labels : gmap string string) :
  exists sset c,
    getStorageStatefulSet pkg d labels = Return sset
    /\ named "memcached" (corev1.ps_Containers (podSpec sset)) = [ c ]
    /\ listenPort c = Some 11211
    /\ (map (fun p => Some (corev1.cp_ContainerPort p)) (corev1.c_Ports c)
          = [ listenPort c ]
        <-> swift.MemcachedPort pkg = 11211).
Proof.
  eexists _, _. split; [reflexivity |].
  split; [vm_compute; reflexivity |].
  split; [reflexivity |].
  destruct pkg; cbn. split.
  - intros H. injection H as H. exact H.
  - intros ->. reflexivity.
Qed.


(** X11. The pod template does not depend on the replica count, on the
    storage class or on the namespace: two SwiftStorage values that agree on
    the name, on the five images and on the ring ConfigMap get the same pod
    template, so scaling a SwiftStorage never changes its pods. *)
Theorem X11_template_frame
    (pkg : swift.Pkg) (labels : gmap string string)
    (d1 d2 : swiftv1beta1.SwiftStorage) :
  swiftv1beta1.Name d1 = swiftv1beta1.Name d2 ->
  images d1 = images d2 ->
  swiftv1beta1.SwiftRingConfigMap (swiftv1beta1.Spec d1)
    = swiftv1beta1.SwiftRingConfigMap (swiftv1beta1.Spec d2) ->
  go_map (fun s => appsv1.Template (appsv1.Spec s)) (getStorageStatefulSet pkg d1 labels)
  = go_map (fun s => appsv1.Template (appsv1.Spec s)) (getStorageStatefulSet pkg d2 labels).
Proof.
  destruct d1 as [n1 ns1 [r1 a1 c1 o1 p1 m1 s1 g1]].
  destruct d2 as [n2 ns2 [r2 a2 c2 o2 p2 m2 s2 g2]].
  unfold images. cbn. intros -> H ->. injection H as -> -> -> -> ->. reflexivity.
Qed.

Lemma X11_template_frame_witness :
  go_map (fun s => appsv1.Template (appsv1.Spec s))
         (getStorageStatefulSet sample_pkg scenarioA ∅)
  = go_map (fun s => appsv1.Template (appsv1.Spec s))
           (getStorageStatefulSet sample_pkg scenarioA_one_replica ∅).
Proof. apply X11_template_frame; reflexivity. Defined.

(** X12. The fields of a StatefulSet that the cluster does not let a patch
    change (the service name, the selector and the volume claim templates)
    depend on the name, the labels and the storage class alone: two
    SwiftStorage values that agree on the name and on the storage class get
    the same three fields. *)
Theorem X12_immutable_fields_frame
    (pkg : swift.Pkg) (labels : gmap string string)
    (d1 d2 : swiftv1beta1.SwiftStorage) :
  swiftv1beta1.Name d1 = swiftv1beta1.Name d2 ->
  swiftv1beta1.StorageClassName (swiftv1beta1.Spec d1)
    = swiftv1beta1.StorageClassName (swiftv1beta1.Spec d2) ->
  go_map (fun s => (appsv1.ServiceName (appsv1.Spec s),
                    appsv1.Selector (appsv1.Spec s),
                    appsv1.VolumeClaimTemplates (appsv1.Spec s)))
         (getStorageStatefulSet pkg d1 labels)
  = go_map (fun s => (appsv1.ServiceName (appsv1.Spec s),
                      appsv1.Selector (appsv1.Spec s),
                      appsv1.VolumeClaimTemplates (appsv1.Spec s)))
           (getStorageStatefulSet pkg d2 labels).
Proof.
  destruct d1 as [n1 ns1 [r1 a1 c1 o1 p1 m1 s1 g1]].
  destruct d2 as [n2 ns2 [r2 a2 c2 o2 p2 m2 s2 g2]].
  cbn. intros -> ->. reflexivity.
Qed.

Lemma X12_immutable_fields_frame_witness :
  go_map (fun s => (appsv1.ServiceName (appsv1.Spec s),
                    appsv1.Selector (appsv1.Spec s),
                    appsv1.VolumeClaimTemplates (appsv1.Spec s)))
         (getStorageStatefulSet sample_pkg scenarioA ∅)
  = go_map (fun s => (appsv1.ServiceName (appsv1.Spec s),
                      appsv1.Selector (appsv1.Spec s),
                      appsv1.VolumeClaimTemplates (appsv1.Spec s)))
           (getStorageStatefulSet sample_pkg scenarioA_one_replica ∅).
Proof. apply X12_immutable_fields_frame; reflexivity. Defined.

(** X13. The selector of the StatefulSet, the labels of its pod template and
    its own labels are one and the same table, the one the synthesizer is
    given; the governing service carries the name of the StatefulSet, and
    the StatefulSet carries the namespace and the name of the SwiftStorage.
    This holds for every label table, the empty one included. *)
Theorem X13_selector_matches_template
    (pkg : swift.Pkg) (d : swiftv1beta1.SwiftStorage) (labels : gmap string string) :
  exists sset,
    getStorageStatefulSet pkg d labels = Return sset
    /\ appsv1.Selector (appsv1.Spec sset)
       = Some (corev1.pts_Labels (appsv1.Template (appsv1.Spec sset)))
    /\ appsv1.Labels sset = corev1.pts_Labels (appsv1.Template (appsv1.Spec sset))
    /\ corev1.pts_Labels (appsv1.Template (appsv1.Spec sset)) = labels
    /\ appsv1.ServiceName (appsv1.Spec sset) = appsv1.Name sset
    /\ (appsv1.Namespace sset, appsv1.Name sset)
       = (swiftv1beta1.Namespace d, swiftv1beta1.Name d).
Proof. eexists. repeat split. Qed.

(** * Further properties of the reconcile pass *)

(** X14. When the helper cannot be made the pass returns the zero result
    with the error of the helper, whatever the applier is: nothing is
    applied, nothing is logged, and the fetch is the only call of the
    cluster API. *)
Theorem X14_helper_failure
    (pkg : swift.Pkg)
    (CreateOrPatch :
       statefulset.StatefulSet -> helper.Helper -> M (ctrl.Result * option error))
    (env : Faults) (req : ctrl.Request) (w w1 : World)
    (instance : swiftv1beta1.SwiftStorage) (err : error) :
  Get env (ctrl.req_NamespacedName req) w = Return (inl instance, w1) ->
  helper_fault env = Some err ->
  Reconcile pkg CreateOrPatch env req w
  = Return ((ctrl.Result_zero, Some err),
            with_call (ApiGetSwiftStorage (ctrl.req_NamespacedName req)) w).
Proof.
  intros HGet Hh. pose proof (Get_world _ _ _ _ _ HGet) as <-.
  eapply Reconcile_helper_error; eassumption.
Qed.

Lemma X14_helper_failure_witness :
  Reconcile sample_pkg (fun _ _ _ => Panic "apply attempted") helper_broken
            scenarioA_request scenarioA_world
  = Return ((ctrl.Result_zero, Some timeout_error),
            with_call (ApiGetSwiftStorage ("openstack", "swift-storage")) scenarioA_world).
Proof.
  eapply (X14_helper_failure sample_pkg _ helper_broken scenarioA_request
            scenarioA_world _ scenarioA timeout_error); reflexivity.
Defined.

(** The pass after a fetch and a helper that succeeded, in one equation. *)
Lemma Reconcile_applied_eq
    (pkg : swift.Pkg)
    (CreateOrPatch :
       statefulset.StatefulSet -> helper.Helper -> M (ctrl.Result * option error))
    (env : Faults) (req : ctrl.Request) (w w1 w2 : World)
    (instance : swiftv1beta1.SwiftStorage) (target : appsv1.StatefulSet)
    (res : ctrl.Result) (err : option error) :
  Get env (ctrl.req_NamespacedName req) w = Return (inl instance, w1) ->
  helper_fault env = None ->
  getStorageStatefulSet pkg instance (swift.GetLabelsStorage pkg) = Return target ->
  CreateOrPatch (statefulset.NewStatefulSet target 5)
                {| helper.beforeObject := instance |} w1
    = Return ((res, err), w2) ->
  Reconcile pkg CreateOrPatch env req w
  = Return ((res, err),
            match err with
            | Some _ => w2
            | None =>
                if bool_decide (res = ctrl.Result_zero) then
                  with_log (LogInfo ("Reconciled SwiftStorage '"
                                     +:+ swiftv1beta1.Name instance
                                     +:+ "' successfully")) w2
                else w2
            end).
Proof.
  intros HGet Hh Htarget Happly. unfold Reconcile. unfold bind at 1. rewrite HGet.
  unfold helper.NewHelper. rewrite Hh. cbn zeta.
  unfold bind at 1. unfold liftGo. rewrite Htarget. cbn [go_map go_bind].
  unfold bind at 1. rewrite Happly.
  destruct err as [e |]; [reflexivity |].
  destruct (decide (res = ctrl.Result_zero)) as [-> | Hne].
  - reflexivity.
  - rewrite bool_decide_eq_true_2 by exact Hne.
    rewrite bool_decide_eq_false_2 by exact Hne. reflexivity.
Qed.


(** X15. Once the SwiftStorage is fetched and the helper made, the pass
    calls the applier once, on the world the fetch left, with the target
    synthesized from the fetched SwiftStorage under the labels of package
    [swift], a timeout of 5, and the helper of that SwiftStorage.  The pass
    returns the very pair the applier returned, a result that comes with an
    error included, and leaves the world as the applier left it, but for
    one log line that it adds exactly when the applier returned the zero
    result and no error. *)
Theorem X15_applier_result_passed_through
    (pkg : swift.Pkg)
    (CreateOrPatch :
       statefulset.StatefulSet -> helper.Helper -> M (ctrl.Result * option error))
    (env : Faults) (req : ctrl.Request) (w w1 w2 : World)
    (instance : swiftv1beta1.SwiftStorage) (target : appsv1.StatefulSet)
    (res : ctrl.Result) (err : option error) :
  Get env (ctrl.req_NamespacedName req) w = Return (inl instance, w1) ->
  helper_fault env = None ->
  getStorageStatefulSet pkg instance (swift.GetLabelsStorage pkg) = Return target ->
  CreateOrPatch (statefulset.NewStatefulSet target 5)
                {| helper.beforeObject := instance |} w1
    = Return ((res, err), w2) ->
  Reconcile pkg CreateOrPatch env req w
  = Return ((res, err),
            match err with
            | Some _ => w2
            | None =>
                if bool_decide (res = ctrl.Result_zero) then
                  with_log (LogInfo ("Reconciled SwiftStorage '"
                                     +:+ swiftv1beta1.Name instance
                                     +:+ "' successfully")) w2
                else w2
            end).
Proof. apply Reconcile_applied_eq. Qed.

Lemma X15_applier_result_passed_through_witness :
  exists w',
    Reconcile sample_pkg waiting_applier no_faults scenarioA_request scenarioA_world
    = Return (({| ctrl.Requeue := false; ctrl.RequeueAfter := 5 |}, None), w')
    /\ log w' = [].
Proof.
  eexists. split.
  - eapply (X15_applier_result_passed_through sample_pkg waiting_applier no_faults
              scenarioA_request scenarioA_world _ _ scenarioA);
      reflexivity.
  - reflexivity.
Defined.

(** X16. The pass panics only if the applier does: with an applier that
    returns on every world, the pass returns on every world, for every
    request and under every fault of the environment. *)
Theorem X16_pass_returns
    (pkg : swift.Pkg)
    (CreateOrPatch :
       statefulset.StatefulSet -> helper.Helper -> M (ctrl.Result * option error))
    (env : Faults) (req : ctrl.Request) (w : World) :
  (forall sset h v, exists r v', CreateOrPatch sset h v = Return (r, v')) ->
  exists r w', Reconcile pkg CreateOrPatch env req w = Return (r, w').
Proof.
  intros Htotal.
  pose proof (Get_eq env (ctrl.req_NamespacedName req) w) as HGet.
  set (w1 := with_call _ w) in HGet.
  destruct (match get_fault env with
            | Some err => inr err
            | None => match swiftstorages w !! ctrl.req_NamespacedName req with
                      | Some instance => inl instance
                      | None => inr not_found_error
                      end
            end) as [instance | err].
  - destruct (helper_fault env) as [e |] eqn:Hh.
    + eexists _, _. eapply Reconcile_helper_error; eassumption.
    + destruct (getStorageStatefulSet_returns pkg instance (swift.GetLabelsStorage pkg))
        as [target Htarget].
      destruct (Htotal (statefulset.NewStatefulSet target 5)
                       {| helper.beforeObject := instance |} w1) as ([res err] & w2 & Ha).
      destruct (Reconcile_applied pkg CreateOrPatch env req w w1 w2 instance target
                  res err HGet Hh Htarget Ha) as (w3 & HR & _).
      eexists _, _. exact HR.
  - destruct (apierrors.IsNotFound err) eqn:Hnf.
    + eexists _, _. eapply Reconcile_not_found; eassumption.
    + eexists _, _. eapply Reconcile_fetch_error; eassumption.
Qed.

Lemma X16_pass_returns_witness :
  exists r w',
    Reconcile sample_pkg idle_applier no_faults scenarioA_request scenarioA_world
    = Return (r, w').
Proof.
  apply X16_pass_returns. intros sset h v. eexists _, _. reflexivity.
Defined.

(** X17. The pass makes up no error: an error it returns is the error of a
    fetch that failed for another reason than not-found, the error of the
    helper, or the error the applier returned. *)
Theorem X17_error_provenance
    (pkg : swift.Pkg)
    (CreateOrPatch :
       statefulset.StatefulSet -> helper.Helper -> M (ctrl.Result * option error))
    (env : Faults) (req : ctrl.Request) (w w' : World)
    (res : ctrl.Result) (e : error) :
  Reconcile pkg CreateOrPatch env req w = Return ((res, Some e), w') ->
  (exists w1,
     Get env (ctrl.req_NamespacedName req) w = Return (inr e, w1)
     /\ apierrors.IsNotFound e = false /\ res = ctrl.Result_zero)
  \/ (exists instance w1,
        Get env (ctrl.req_NamespacedName req) w = Return (inl instance, w1)
        /\ helper_fault env = Some e /\ res = ctrl.Result_zero /\ w' = w1)
  \/ (exists instance w1 target,
        Get env (ctrl.req_NamespacedName req) w = Return (inl instance, w1)
        /\ helper_fault env = None
        /\ getStorageStatefulSet pkg instance (swift.GetLabelsStorage pkg) = Return target
        /\ CreateOrPatch (statefulset.NewStatefulSet target 5)
                         {| helper.beforeObject := instance |} w1
           = Return ((res, Some e), w')).
Proof.
  intros HR.
  pose proof (Get_eq env (ctrl.req_NamespacedName req) w) as HGet.
  set (w1 := with_call _ w) in HGet.
  destruct (match get_fault env with
            | Some err => inr err
            | None => match swiftstorages w !! ctrl.req_NamespacedName req with
                      | Some instance => inl instance
                      | None => inr not_found_error
                      end
            end) as [instance | err].
  - destruct (helper_fault env) as [e' |] eqn:Hh.
    + rewrite (Reconcile_helper_error pkg CreateOrPatch env req w w1 instance e' HGet Hh) in HR.
      injection HR as <- <- <-. right. left. exists instance, w1.
      repeat split; assumption.
    + destruct (getStorageStatefulSet_returns pkg instance (swift.GetLabelsStorage pkg))
        as [target Htarget].
      destruct (CreateOrPatch (statefulset.NewStatefulSet target 5)
                              {| helper.beforeObject := instance |} w1)
        as [[[res0 err0] w2] | msg] eqn:Ha.
      * rewrite (Reconcile_applied_eq pkg CreateOrPatch env req w w1 w2 instance target
                   res0 err0 HGet Hh Htarget Ha) in HR.
        destruct err0 as [e0 |]; [| discriminate HR].
        injection HR as <- <- <-. right. right. exists instance, w1, target.
        repeat split; assumption.
      * exfalso. revert HR. unfold Reconcile. unfold bind at 1. rewrite HGet.
        unfold helper.NewHelper. rewrite Hh. cbn zeta.
        unfold bind at 1. unfold liftGo. rewrite Htarget. cbn [go_map go_bind].
        unfold bind at 1. rewrite Ha. discriminate.
  - destruct (apierrors.IsNotFound err) eqn:Hnf.
    + rewrite (Reconcile_not_found pkg CreateOrPatch env req w w1 err HGet Hnf) in HR.
      discriminate HR.
    + rewrite (Reconcile_fetch_error pkg CreateOrPatch env req w w1 err HGet Hnf) in HR.
      injection HR as <- <- _. left. exists w1. repeat split; assumption.
Qed.

Lemma X17_error_provenance_witness :
  (exists w1,
     Get fetch_timeout ("openstack", "swift-storage") scenarioA_world
       = Return (inr timeout_error, w1)
     /\ apierrors.IsNotFound timeout_error = false
     /\ ctrl.Result_zero = ctrl.Result_zero)
  \/ (exists instance w1,
        Get fetch_timeout ("openstack", "swift-storage") scenarioA_world
          = Return (inl instance, w1)
        /\ helper_fault fetch_timeout = Some timeout_error
        /\ ctrl.Result_zero = ctrl.Result_zero
        /\ with_log (LogError timeout_error "Failed to get SwiftStorage")
             (with_call (ApiGetSwiftStorage ("openstack", "swift-storage"))
                        scenarioA_world) = w1)
  \/ (exists instance w1 target,
        Get fetch_timeout ("openstack", "swift-storage") scenarioA_world
          = Return (inl instance, w1)
        /\ helper_fault fetch_timeout = None
        /\ getStorageStatefulSet sample_pkg instance (swift.GetLabelsStorage sample_pkg)
           = Return target
        /\ idle_applier (statefulset.NewStatefulSet target 5)
                        {| helper.beforeObject := instance |} w1
           = Return ((ctrl.Result_zero, Some timeout_error),
                     with_log (LogError timeout_error "Failed to get SwiftStorage")
                       (with_call (ApiGetSwiftStorage ("openstack", "swift-storage"))
                                  scenarioA_world))).
Proof.
  apply (X17_error_provenance sample_pkg idle_applier fetch_timeout scenarioA_request
           scenarioA_world _ ctrl.Result_zero timeout_error).
  reflexivity.
Defined.
